(** * A shallow embedding of the mcp-chrome native-messaging bridge

    Three source files are embedded:
    - [app/chrome-extension/entrypoints/background/native-host.ts]
      (module [NativeHost]): the extension-side listener on the native port,
      the server status it owns, and the runtime-message listener;
    - [app/native-server/src/mcp/register-tools.ts] (module [RegisterTools]):
      the two request handlers of the protocol server;
    - the native server's entry script (module [Bootstrap]): the file logger
      and the process-level handlers.

    JavaScript values are a small inductive type; module-level variables are
    fields of an explicit state; console output, posted frames, storage calls
    and broadcasts are entries of an effect trace; an [await] splits a listener
    into the part that runs before the suspension and a continuation that is
    resumed, in whatever state the module is in by then, with the outcome of
    the awaited promise.  Module [EventLoop] runs the listeners of the
    extension over a schedule of events.

    The definitions come first, module by module; the properties follow. *)

From Stdlib Require Import List String Ascii ZArith Bool Lia DecimalString.
Import ListNotations.
Open Scope string_scope.
Open Scope Z_scope.
Set Warnings "-register-all".

(* ===================================================================== *)
(** * JavaScript values *)
(* ===================================================================== *)

Module Js.

(** The values that travel through the bridge: JSON data, [undefined], and
    [Error] objects (which only carry their [message] here).  Numbers are the
    integers; the bridge never computes with them. *)
Inductive value : Type :=
| VUndefined
| VNull
| VBool (b : bool)
| VNum (n : Z)
| VStr (s : string)
| VArr (items : list value)
| VObj (fields : list (string * value))
| VError (message : string).

(** ToBoolean, as used by [if (x)], [x && y], [x || y], [x ? a : b]. *)
Definition truthy (v : value) : bool :=
  match v with
  | VUndefined | VNull => false
  | VBool b => b
  | VNum n => negb (n =? 0)
  | VStr s => negb (s =? "")%string
  | VArr _ | VObj _ | VError _ => true
  end.

(** [a || b] *)
Definition or_else (a b : value) : value := if truthy a then a else b.

Definition nullish (v : value) : bool :=
  match v with VUndefined | VNull => true | _ => false end.

(** [v instanceof Error] *)
Definition instanceof_Error (v : value) : bool :=
  match v with VError _ => true | _ => false end.

Fixpoint lookup (k : string) (fields : list (string * value)) : value :=
  match fields with
  | [] => VUndefined
  | (k', v) :: rest => if (k =? k')%string then v else lookup k rest
  end.

(** The result of evaluating an expression: a value, or a thrown value. *)
Inductive completion (A : Type) : Type :=
| Returned (a : A)
| Thrown (e : value).
Arguments Returned {A} a.
Arguments Thrown {A} e.

(** [v?.k]: [undefined] on [null] and [undefined], own property on objects,
    [message] on errors, [undefined] on the other primitives and on arrays
    (whose only named properties are not data of the bridge). *)
Definition get_opt (v : value) (k : string) : value :=
  match v with
  | VObj fields => lookup k fields
  | VError m => if (k =? "message")%string then VStr m else VUndefined
  | _ => VUndefined
  end.

(** [v.k]: as [v?.k], but a TypeError on [null] and [undefined]. *)
Definition get (v : value) (k : string) : completion value :=
  if nullish v
  then Thrown (VError ("Cannot read properties of " ++
                       (match v with VNull => "null" | _ => "undefined" end)))
  else Returned (get_opt v k).

Definition string_of_Z (n : Z) : string :=
  NilZero.string_of_int (Z.to_int n).

(** [String(v)] and template interpolation. *)
Fixpoint String_ (v : value) : string :=
  match v with
  | VUndefined => "undefined"
  | VNull => "null"
  | VBool true => "true"
  | VBool false => "false"
  | VNum n => string_of_Z n
  | VStr s => s
  | VArr items =>
      (fix join (l : list value) : string :=
         match l with
         | [] => ""
         | [x] => if nullish x then "" else String_ x
         | x :: rest => (if nullish x then "" else String_ x) ++ "," ++ join rest
         end) items
  | VObj _ => "[object Object]"
  | VError m => if (m =? "")%string then "Error" else "Error: " ++ m
  end.

(** How a promise settles. *)
Inductive settled : Type :=
| Resolved (v : value)
| Rejected (e : value).

End Js.
Import Js.

(* ===================================================================== *)
(** * Imported constants *)
(* ===================================================================== *)

(** The string and number constants the sources import from
    [@/common/constants]; their values are not part of the embedded files, so
    every definition below is parametric in them. *)
Class Constants : Type := {
  NATIVE_HOST_NAME : string;
  NATIVE_HOST_DEFAULT_PORT : Z;
  STORAGE_KEYS_SERVER_STATUS : string;
  SUCCESS_MESSAGES_TOOL_EXECUTED : string;
  SUCCESS_MESSAGES_SERVER_STARTED : string;
  SUCCESS_MESSAGES_SERVER_STOPPED : string;
  ERROR_MESSAGES_NATIVE_CONNECTION_FAILED : string;
  ERROR_MESSAGES_NATIVE_DISCONNECTED : string;
  ERROR_MESSAGES_SERVER_STATUS_LOAD_FAILED : string;
  ERROR_MESSAGES_SERVER_STATUS_SAVE_FAILED : string;
  ERROR_MESSAGES_TOOL_EXECUTION_FAILED : string
}.

(** The members of the enum [NativeMessageType] (package [chrome-mcp-shared])
    that the embedded files mention.  An enum's members are distinct
    constants, hence distinct constructors. *)
Inductive NativeMessageType : Type :=
| START
| LIST_TOOLS
| PROCESS_DATA
| CALL_TOOL
| SERVER_STARTED
| SERVER_STOPPED
| ERROR_FROM_NATIVE_HOST
| CONNECT_NATIVE
| PING_NATIVE
| DISCONNECT_NATIVE.

(** The members of [BACKGROUND_MESSAGE_TYPES] that the embedded files mention. *)
Inductive BackgroundMessageType : Type :=
| SERVER_STATUS_CHANGED
| GET_SERVER_STATUS
| REFRESH_SERVER_STATUS.

Definition NativeMessageType_eq_dec (a b : NativeMessageType) : {a = b} + {a <> b}.
Proof. decide equality. Defined.

Definition BackgroundMessageType_eq_dec (a b : BackgroundMessageType)
  : {a = b} + {a <> b}.
Proof. decide equality. Defined.

(** What the [type] property of a received message can hold: one of the enum
    constants, or any other value ([undefined] when the property is absent). *)
Inductive MessageType : Type :=
| TNative (t : NativeMessageType)
| TBackground (t : BackgroundMessageType)
| TOther (v : value).

(** [ty === NativeMessageType.c] *)
Definition is_native (ty : MessageType) (c : NativeMessageType) : bool :=
  match ty with
  | TNative t => if NativeMessageType_eq_dec t c then true else false
  | _ => false
  end.

(** [ty === BACKGROUND_MESSAGE_TYPES.c] *)
Definition is_background (ty : MessageType) (c : BackgroundMessageType) : bool :=
  match ty with
  | TBackground t => if BackgroundMessageType_eq_dec t c then true else false
  | _ => false
  end.

(* ===================================================================== *)
(** * native-host.ts: the extension side *)
(* ===================================================================== *)

Module NativeHost.

(** A [chrome.runtime.Port], known by its identity. *)
Definition Port : Type := nat.

(** [interface ServerStatus]; an absent [port] is [undefined]. *)
Record ServerStatus : Type := {
  isRunning : bool;
  port : value;
  lastUpdated : Z
}.

(** The module-level variables [nativePort] and [currentServerStatus]. *)
Record State : Type := {
  nativePort : option Port;
  currentServerStatus : ServerStatus
}.

(** A message received on the native port. *)
Record Message : Type := {
  type : MessageType;
  requestId : value;
  payload : value
}.

(** The two shapes of object the module posts on the native port:
    [{ responseToRequestId, payload }] and [{ type, payload }]. *)
Inductive Posted : Type :=
| Response (responseToRequestId : value) (response_payload : value)
| Typed (posted_type : NativeMessageType) (posted_payload : value).

(** A message received on [chrome.runtime.onMessage]: a bare string that is
    compared with [===], or an object with a [type] and possibly a [port]. *)
Inductive RuntimeMessage : Type :=
| BareString (s : MessageType)
| ObjectMessage (ty : MessageType) (requested_port : value).

(** The objects handed to [sendResponse]. *)
Inductive RuntimeResponse : Type :=
| ConnectResponse (success : bool) (requested_port : value)
| PingResponse (connected : bool)
| DisconnectResponse (success : bool) (error : option string)
| StatusResponse (success : bool) (error : option string)
                 (serverStatus : ServerStatus) (connected : bool).

Inductive Level : Type := Log | Warn | Error.

(** What a run of the module does to the outside, in order.  A console
    entry keeps the level and the leading string of the call, template
    strings interpolated; the objects passed after it are left out.
    [postMessage] on the port the module holds is taken not to throw. *)
Inductive Effect : Type :=
| Console (level : Level) (text : string)
| ConnectNative (host : string)
| AddMessageListener (p : Port)
| AddDisconnectListener (p : Port)
| PostMessage (p : Port) (frame : Posted)
| PortDisconnect (p : Port)
| StorageSet (key : string) (status : ServerStatus)
| StorageGet (key : string)
| HandleCallTool (tool_payload : value)
| RuntimeSendMessage (ty : BackgroundMessageType) (status : ServerStatus)
| SendResponse (r : RuntimeResponse)
| AddStartupListener
| AddRuntimeMessageListener.

(** How [chrome.storage.local.get([key])] settles: with the stored status
    when [result[key]] is truthy, with nothing under the key, or rejected. *)
Inductive get_outcome : Type :=
| GetResolved (stored : option ServerStatus)
| GetRejected (e : value).

(** A synchronous run: it reads the clock ([Date.now()]), reads and writes
    the module state, and appends to the effect trace. *)
Definition M (A : Type) : Type := Z -> State -> A * State * list Effect.

Definition ret {A} (a : A) : M A := fun _ st => (a, st, []).

Definition bind {A B} (c : M A) (f : A -> M B) : M B :=
  fun now st =>
    let '(a, st1, e1) := c now st in
    let '(b, st2, e2) := f a now st1 in
    (b, st2, (e1 ++ e2)%list).

Notation "x <- c ;; k" := (bind c (fun x => k))
  (at level 61, c at next level, right associativity).
Notation "c ;; k" := (bind c (fun _ => k))
  (at level 61, right associativity).

Definition Date_now : M Z := fun now st => (now, st, []).
Definition read : M State := fun _ st => (st, st, []).
Definition emit (e : Effect) : M unit := fun _ st => (tt, st, [e]).
Definition console (l : Level) (text : string) : M unit := emit (Console l text).

Definition set_nativePort (p : option Port) : M unit :=
  fun _ st => (tt, {| nativePort := p; currentServerStatus := currentServerStatus st |}, []).

Definition set_currentServerStatus (s : ServerStatus) : M unit :=
  fun _ st => (tt, {| nativePort := nativePort st; currentServerStatus := s |}, []).

(** [nativePort?.postMessage(frame)] *)
Definition postMessage_if_connected (frame : Posted) : M unit :=
  st <- read ;;
  match nativePort st with
  | Some p => emit (PostMessage p frame)
  | None => ret tt
  end.

(** What an [async] function is doing once its synchronous part has run:
    it has finished, or it is suspended at an [await] with the rest of its
    body as a continuation of the awaited outcome. *)
Inductive Task : Type :=
| Finished
| AwaitHandleCallTool (k : settled -> M Task)
| AwaitStorageSet (k : settled -> M Task)
| AwaitStorageGet (k : get_outcome -> M Task).

Definition resume (t : Task) (o : settled) : M Task :=
  match t with
  | AwaitHandleCallTool k | AwaitStorageSet k => k o
  | _ => ret t
  end.

Definition resume_get (t : Task) (o : get_outcome) : M Task :=
  match t with
  | AwaitStorageGet k => k o
  | _ => ret t
  end.

Definition result_of {A} (r : A * State * list Effect) : A := fst (fst r).
Definition state_of {A} (r : A * State * list Effect) : State := snd (fst r).
Definition trace_of {A} (r : A * State * list Effect) : list Effect := snd r.

Section WithConstants.
Context {K : Constants}.

Definition HOST_NAME : string := NATIVE_HOST_NAME.

(** [let currentServerStatus = { isRunning: false, lastUpdated: Date.now() }] *)
Definition initial_state (now : Z) : State :=
  {| nativePort := None;
     currentServerStatus :=
       {| isRunning := false; port := VUndefined; lastUpdated := now |} |}.

(** [saveServerStatus(status)], awaited; [k] is what follows the [await] in
    the caller.  When the write settles, the rest of [saveServerStatus] and
    then [k] run; no listener can run between the two, and they are one run
    here. *)
Definition saveServerStatus (status : ServerStatus) (k : M Task) : M Task :=
  console Log "[native] Saving server status to storage:" ;;
  emit (StorageSet STORAGE_KEYS_SERVER_STATUS status) ;;
  ret (AwaitStorageSet (fun o =>
    match o with
    | Resolved _ => console Log "[native] Server status saved successfully"
    | Rejected _ =>
        console Error ("[native] " ++ ERROR_MESSAGES_SERVER_STATUS_SAVE_FAILED)
    end ;;
    k)).

(** [loadServerStatus()]; [k] receives the status the promise resolves with. *)
Definition loadServerStatus (k : ServerStatus -> M Task) : M Task :=
  let default :=
    now <- Date_now ;;
    console Log "[native] Returning default server status:" ;;
    k {| isRunning := false; port := VUndefined; lastUpdated := now |} in
  console Log "[native] Loading server status from storage" ;;
  emit (StorageGet STORAGE_KEYS_SERVER_STATUS) ;;
  ret (AwaitStorageGet (fun o =>
    match o with
    | GetResolved (Some status) =>
        console Log "[native] Loaded server status:" ;;
        k status
    | GetResolved None =>
        console Log "[native] No server status found in storage, using default" ;;
        default
    | GetRejected _ =>
        console Error ("[native] " ++ ERROR_MESSAGES_SERVER_STATUS_LOAD_FAILED) ;;
        default
    end)).

(** [broadcastServerStatusChange(status)]; the [.then]/[.catch] callbacks of
    the send run later and only log, see [broadcast_settled]. *)
Definition broadcastServerStatusChange (status : ServerStatus) : M unit :=
  console Log "[native] Broadcasting server status change:" ;;
  emit (RuntimeSendMessage SERVER_STATUS_CHANGED status).

Definition broadcast_settled (o : settled) : M unit :=
  match o with
  | Resolved _ => console Log "[native] Server status broadcast successful"
  | Rejected _ =>
      console Log "[native] No listeners for server status broadcast (this is normal)"
  end.

(** The listener [nativePort.onMessage.addListener(async (message) => ...)]. *)
Definition onMessage (message : Message) : M Task :=
  console Log "[native] Received message from native host:" ;;
  if is_native (type message) PROCESS_DATA && truthy (requestId message) then
    console Log ("[native] Processing data request with ID: "
                 ++ String_ (requestId message)) ;;
    let requestId := requestId message in
    let requestPayload := payload message in
    let response :=
      Response requestId
        (VObj [("status", VStr "success");
               ("message", VStr SUCCESS_MESSAGES_TOOL_EXECUTED);
               ("data", requestPayload)]) in
    console Log "[native] Sending process data response:" ;;
    postMessage_if_connected response ;;
    ret Finished
  else if is_native (type message) CALL_TOOL && truthy (requestId message) then
    console Log ("[native] Handling tool call request with ID: "
                 ++ String_ (requestId message)) ;;
    let requestId := requestId message in
    emit (HandleCallTool (payload message)) ;;
    ret (AwaitHandleCallTool (fun o =>
      match o with
      | Resolved result =>
          console Log "[native] Tool call successful, result:" ;;
          let successResponse :=
            Response requestId
              (VObj [("status", VStr "success");
                     ("message", VStr SUCCESS_MESSAGES_TOOL_EXECUTED);
                     ("data", result)]) in
          console Log "[native] Sending tool call success response:" ;;
          postMessage_if_connected successResponse ;;
          ret Finished
      | Rejected error =>
          console Error "[native] Tool call failed:" ;;
          let errorResponse :=
            Response requestId
              (VObj [("status", VStr "error");
                     ("message", VStr ERROR_MESSAGES_TOOL_EXECUTION_FAILED);
                     ("error",
                      if instanceof_Error error
                      then get_opt error "message"
                      else VStr (String_ error))]) in
          console Log "[native] Sending tool call error response:" ;;
          postMessage_if_connected errorResponse ;;
          ret Finished
      end))
  else if is_native (type message) SERVER_STARTED then
    let port := get_opt (payload message) "port" in
    console Log ("[native] Server started notification received for port: "
                 ++ String_ port) ;;
    now <- Date_now ;;
    set_currentServerStatus
      {| isRunning := true; port := port; lastUpdated := now |} ;;
    st <- read ;;
    saveServerStatus (currentServerStatus st)
      (st <- read ;;
       broadcastServerStatusChange (currentServerStatus st) ;;
       console Log ("[native] " ++ SUCCESS_MESSAGES_SERVER_STARTED
                    ++ " on port " ++ String_ port) ;;
       ret Finished)
  else if is_native (type message) SERVER_STOPPED then
    console Log "[native] Server stopped notification received" ;;
    st <- read ;;
    now <- Date_now ;;
    set_currentServerStatus
      {| isRunning := false;
         port := NativeHost.port (currentServerStatus st);
         lastUpdated := now |} ;;
    st <- read ;;
    saveServerStatus (currentServerStatus st)
      (st <- read ;;
       broadcastServerStatusChange (currentServerStatus st) ;;
       console Log ("[native] " ++ SUCCESS_MESSAGES_SERVER_STOPPED) ;;
       ret Finished)
  else if is_native (type message) ERROR_FROM_NATIVE_HOST then
    let errorMessage :=
      or_else (get_opt (payload message) "message") (VStr "Unknown error") in
    console Error "[native] Error from native host:" ;;
    ret Finished
  else
    console Warn "[native] Received unknown message type from native host:" ;;
    ret Finished.

(** The listener [nativePort.onDisconnect.addListener(() => ...)]. *)
Definition onDisconnect : M unit :=
  console Error ("[native] " ++ ERROR_MESSAGES_NATIVE_DISCONNECTED) ;;
  set_nativePort None ;;
  console Log "[native] Native port set to null after disconnect".

(** [connectNativeHost(port = NATIVE_HOST.DEFAULT_PORT)].  [channel] is what
    [chrome.runtime.connectNative(HOST_NAME)] does if it is called: it returns
    a port or throws. *)
Definition connectNativeHost (port : value) (channel : completion Port) : M unit :=
  let port :=
    match port with VUndefined => VNum NATIVE_HOST_DEFAULT_PORT | _ => port end in
  st <- read ;;
  match nativePort st with
  | Some _ =>
      console Log "[native] Native port already connected, skipping connection"
  | None =>
      console Log ("[native] Attempting to connect to native host: "
                   ++ HOST_NAME ++ " on port " ++ String_ port) ;;
      emit (ConnectNative HOST_NAME) ;;
      match channel with
      | Returned p =>
          set_nativePort (Some p) ;;
          console Log "[native] Native port connection established" ;;
          emit (AddMessageListener p) ;;
          emit (AddDisconnectListener p) ;;
          let startMessage := Typed START (VObj [("port", port)]) in
          console Log "[native] Sending start message to native host:" ;;
          emit (PostMessage p startMessage)
      | Thrown error =>
          console Error ("[native] " ++ ERROR_MESSAGES_NATIVE_CONNECTION_FAILED)
      end
  end.

(** [message.type] of a runtime message; a string has none. *)
Definition runtime_type (message : RuntimeMessage) : MessageType :=
  match message with
  | BareString _ => TOther VUndefined
  | ObjectMessage ty _ => ty
  end.

(** [message === NativeMessageType.c] *)
Definition is_bare_native (message : RuntimeMessage) (c : NativeMessageType) : bool :=
  match message with
  | BareString s => is_native s c
  | ObjectMessage _ _ => false
  end.

(** The listener [chrome.runtime.onMessage.addListener((message, _sender,
    sendResponse) => ...)].  It returns whether the listener returned [true],
    and the task it left running. *)
Definition onRuntimeMessage (message : RuntimeMessage) (channel : completion Port)
  : M (bool * Task) :=
  console Log "[native] Received runtime message:" ;;
  if is_bare_native message CONNECT_NATIVE
     || is_native (runtime_type message) CONNECT_NATIVE then
    let port :=
      match message with
      | ObjectMessage _ p => if truthy p then p else VNum NATIVE_HOST_DEFAULT_PORT
      | BareString _ => VNum NATIVE_HOST_DEFAULT_PORT
      end in
    console Log ("[native] Connect native request received for port: "
                 ++ String_ port) ;;
    connectNativeHost port channel ;;
    let response := ConnectResponse true port in
    console Log "[native] Sending connect response:" ;;
    emit (SendResponse response) ;;
    ret (true, Finished)
  else if is_native (runtime_type message) PING_NATIVE then
    st <- read ;;
    let connected := match nativePort st with Some _ => true | None => false end in
    console Log ("[native] Ping native request received, connected: "
                 ++ String_ (VBool connected)) ;;
    let response := PingResponse connected in
    console Log "[native] Sending ping response:" ;;
    emit (SendResponse response) ;;
    ret (true, Finished)
  else if is_native (runtime_type message) DISCONNECT_NATIVE then
    console Log "[native] Disconnect native request received" ;;
    st <- read ;;
    match nativePort st with
    | Some p =>
        console Log "[native] Disconnecting native port" ;;
        emit (PortDisconnect p) ;;
        set_nativePort None ;;
        let response := DisconnectResponse true None in
        console Log "[native] Sending disconnect success response:" ;;
        emit (SendResponse response)
    | None =>
        console Log "[native] No active connection to disconnect" ;;
        let response := DisconnectResponse false (Some "No active connection") in
        console Log "[native] Sending disconnect error response:" ;;
        emit (SendResponse response)
    end ;;
    ret (true, Finished)
  else if is_background (runtime_type message) GET_SERVER_STATUS then
    console Log "[native] Get server status request received" ;;
    st <- read ;;
    let response :=
      StatusResponse true None (currentServerStatus st)
        (match nativePort st with Some _ => true | None => false end) in
    console Log "[native] Sending server status response:" ;;
    emit (SendResponse response) ;;
    ret (true, Finished)
  else if is_background (runtime_type message) REFRESH_SERVER_STATUS then
    console Log "[native] Refresh server status request received" ;;
    t <- loadServerStatus (fun storedStatus =>
           set_currentServerStatus storedStatus ;;
           st <- read ;;
           let response :=
             StatusResponse true None (currentServerStatus st)
               (match nativePort st with Some _ => true | None => false end) in
           console Log "[native] Sending refresh status success response:" ;;
           emit (SendResponse response) ;;
           ret Finished) ;;
    ret (true, t)
  else
    console Log "[native] Unhandled runtime message type:" ;;
    ret (false, Finished).

(** The listener [chrome.runtime.onStartup.addListener(() => ...)]. *)
Definition onStartup (channel : completion Port) : M unit :=
  console Log "[native] Chrome runtime startup detected, connecting native host" ;;
  connectNativeHost VUndefined channel.

(** [initNativeHostListener()]; the task is the pending load of the status. *)
Definition initNativeHostListener : M Task :=
  console Log "[native] Initializing native host listener" ;;
  t <- loadServerStatus (fun status =>
         set_currentServerStatus status ;;
         console Log "[native] Server status initialized from storage:" ;;
         ret Finished) ;;
  emit AddStartupListener ;;
  emit AddRuntimeMessageListener ;;
  console Log "[native] Native host listener initialization complete" ;;
  ret t.

End WithConstants.

(** ** Observations on traces *)

(** The frames a trace posts on the native port, in order. *)
Fixpoint posted (tr : list Effect) : list (Port * Posted) :=
  match tr with
  | [] => []
  | PostMessage p f :: rest => (p, f) :: posted rest
  | _ :: rest => posted rest
  end.

(** The status changes a trace broadcasts, in order. *)
Fixpoint broadcasts (tr : list Effect) : list ServerStatus :=
  match tr with
  | [] => []
  | RuntimeSendMessage SERVER_STATUS_CHANGED s :: rest => s :: broadcasts rest
  | _ :: rest => broadcasts rest
  end.

(** The channels a trace opens. *)
Fixpoint channels_opened (tr : list Effect) : nat :=
  match tr with
  | [] => 0%nat
  | ConnectNative _ :: rest => S (channels_opened rest)
  | _ :: rest => channels_opened rest
  end.

Definition is_console (e : Effect) : bool :=
  match e with Console _ _ => true | _ => false end.

(** The responses a trace hands to [sendResponse]. *)
Fixpoint responses (tr : list Effect) : list RuntimeResponse :=
  match tr with
  | [] => []
  | SendResponse r :: rest => r :: responses rest
  | _ :: rest => responses rest
  end.

(** The types the native-port listener acts on; every other type reaches
    its last [else]. *)
Definition vocabulary : list NativeMessageType :=
  [PROCESS_DATA; CALL_TOOL; SERVER_STARTED; SERVER_STOPPED; ERROR_FROM_NATIVE_HOST].

Definition in_vocabulary (ty : MessageType) : bool :=
  existsb (is_native ty) vocabulary.

Section Persistence.
Context {K : Constants}.

(** The record that a write to storage has ended: the line logged after the
    write, or the logged failure. *)
Definition write_ended (e : Effect) : bool :=
  match e with
  | Console Log t => (t =? "[native] Server status saved successfully")%string
  | Console Error t =>
      (t =? "[native] " ++ ERROR_MESSAGES_SERVER_STATUS_SAVE_FAILED)%string
  | _ => false
  end.

Inductive Phase : Type := NotAttempted | Attempted | Ended.

Definition is_broadcast (e : Effect) : bool :=
  match e with RuntimeSendMessage _ _ => true | _ => false end.

(** How far persistence has got once [e] has been observed: a write is
    attempted when it is issued, and has ended when its end is recorded. *)
Definition advance (ph : Phase) (e : Effect) : Phase :=
  match ph with
  | NotAttempted => match e with StorageSet _ _ => Attempted | _ => NotAttempted end
  | Attempted => if write_ended e then Ended else Attempted
  | Ended => Ended
  end.

Definition phase_after (ph : Phase) (tr : list Effect) : Phase :=
  fold_left advance tr ph.

(** Every broadcast of the trace comes after a write to storage that has
    ended, with success or with a recorded failure. *)
Fixpoint persisted_before_broadcast (ph : Phase) (tr : list Effect) : bool :=
  match tr with
  | [] => true
  | e :: rest =>
      (if is_broadcast e
       then match ph with Ended => true | _ => false end
       else true)
      && persisted_before_broadcast (advance ph e) rest
  end.

End Persistence.

(** ** What the listeners are expected to produce *)

Definition is_connected (st : State) : bool :=
  match nativePort st with Some _ => true | None => false end.

(** A state in which the module holds port [p] and no server is known. *)
Definition connected_to (p : Port) (now : Z) : State :=
  {| nativePort := Some p;
     currentServerStatus :=
       {| isRunning := false; port := VUndefined; lastUpdated := now |} |}.

Definition with_status (st : State) (s : ServerStatus) : State :=
  {| nativePort := nativePort st; currentServerStatus := s |}.

(** The status recorded on a server-started frame with port [p]. *)
Definition started_status (p : value) (now : Z) : ServerStatus :=
  {| isRunning := true; port := p; lastUpdated := now |}.

(** The status recorded on a server-stopped frame received in state [st]. *)
Definition stopped_status (st : State) (now : Z) : ServerStatus :=
  {| isRunning := false;
     port := NativeHost.port (currentServerStatus st);
     lastUpdated := now |}.

(** What the last [else] of the listener does, and all the listener does
    when it gets there. *)
Definition only_logged_as_unknown : list Effect :=
  [Console Log "[native] Received message from native host:";
   Console Warn "[native] Received unknown message type from native host:"].

(** [chrome.runtime.sendMessage({ type: GET_SERVER_STATUS })] as received. *)
Definition status_query : RuntimeMessage :=
  ObjectMessage (TBackground GET_SERVER_STATUS) VUndefined.

Section Expected.
Context {K : Constants}.

(** The payload of the frame that reports a failed tool call. *)
Definition errorResponse_payload (error : value) : value :=
  VObj [("status", VStr "error");
        ("message", VStr ERROR_MESSAGES_TOOL_EXECUTION_FAILED);
        ("error", if instanceof_Error error
                  then get_opt error "message"
                  else VStr (String_ error))].

(** The console line that closes a write to storage. *)
Definition save_record (o : settled) : Effect :=
  match o with
  | Resolved _ => Console Log "[native] Server status saved successfully"
  | Rejected _ =>
      Console Error ("[native] " ++ ERROR_MESSAGES_SERVER_STATUS_SAVE_FAILED)
  end.

End Expected.

End NativeHost.

(* ===================================================================== *)
(** * register-tools.ts: the protocol-server side *)
(* ===================================================================== *)

Module RegisterTools.

(** ** [JSON.stringify] on the values of the bridge *)

Definition hex_digit (n : nat) : ascii :=
  nth n (list_ascii_of_string "0123456789abcdef") "0"%char.

(** QuoteJSONString, one character at a time. *)
Definition quote_char (c : ascii) : string :=
  let n := nat_of_ascii c in
  if (n =? 8)%nat then "\b"
  else if (n =? 9)%nat then "\t"
  else if (n =? 10)%nat then "\n"
  else if (n =? 12)%nat then "\f"
  else if (n =? 13)%nat then "\r"
  else if (n =? 34)%nat then String "\"%char (String c "")
  else if (n =? 92)%nat then "\\"
  else if (n <? 32)%nat then
    "\u00" ++ String (hex_digit (n / 16)) (String (hex_digit (n mod 16)) "")
  else String c "".

Fixpoint quote_chars (s : string) : string :=
  match s with
  | EmptyString => ""
  | String c rest => quote_char c ++ quote_chars rest
  end.

Definition quote (s : string) : string :=
  String (ascii_of_nat 34) (quote_chars s ++ String (ascii_of_nat 34) "").

(** [JSON.stringify(v)]: a string, or [undefined] for [undefined].  Inside an
    array [undefined] prints as [null]; inside an object a property whose
    value is [undefined] is left out; an [Error] has no enumerable property. *)
Fixpoint JSON_stringify (v : value) : value :=
  let text (j : value) : string :=
    match j with VStr s => s | _ => "null" end in
  match v with
  | VUndefined => VUndefined
  | VNull => VStr "null"
  | VBool true => VStr "true"
  | VBool false => VStr "false"
  | VNum n => VStr (string_of_Z n)
  | VStr s => VStr (quote s)
  | VArr items =>
      VStr ("[" ++
        (fix elements (l : list value) : string :=
           match l with
           | [] => ""
           | [x] => text (JSON_stringify x)
           | x :: rest => text (JSON_stringify x) ++ "," ++ elements rest
           end) items ++ "]")
  | VObj fields =>
      VStr ("{" ++
        (fix members (first : bool) (l : list (string * value)) : string :=
           match l with
           | [] => ""
           | (k, x) :: rest =>
               match JSON_stringify x with
               | VStr s =>
                   (if first then "" else ",") ++ quote k ++ ":" ++ s
                   ++ members false rest
               | _ => members first rest
               end
           end) true fields ++ "}")
  | VError _ => VStr "{}"
  end.

(** ** The handlers *)

(** An item of [CallToolResult.content]. *)
Record ContentItem : Type := {
  item_type : string;
  text : value
}.

Record CallToolResult : Type := {
  content : list ContentItem;
  isError : bool
}.

Record ListToolsResult : Type := {
  tools : value
}.

(** The arguments of a call of
    [nativeMessagingHostInstance.sendRequestToExtensionAndWait]. *)
Record Request : Type := {
  messagePayload : value;
  messageType : NativeMessageType;
  timeoutMs : Z
}.

(** An [async] handler: it completes, or it has issued a request through the
    native messaging host and continues with the outcome of that promise. *)
Inductive Async (A : Type) : Type :=
| Done (c : completion A)
| SendRequestToExtensionAndWait (request : Request) (k : settled -> Async A).
Arguments Done {A} c.
Arguments SendRequestToExtensionAndWait {A} request k.

(** The handler registered for [ListToolsRequestSchema]. *)
Definition listTools : Async ListToolsResult :=
  SendRequestToExtensionAndWait
    {| messagePayload := VObj []; messageType := LIST_TOOLS; timeoutMs := 30000 |}
    (fun o =>
       match o with
       | Resolved tools_ =>
           match get tools_ "data" with
           | Returned data => Done (Returned {| tools := data |})
           | Thrown e => Done (Thrown e)
           end
       | Rejected e => Done (Thrown e)
       end).

(** [handleToolCall(name, args)] *)
Definition handleToolCall (name : string) (args : value) : Async CallToolResult :=
  SendRequestToExtensionAndWait
    {| messagePayload := VObj [("name", VStr name); ("args", args)];
       messageType := CALL_TOOL;
       timeoutMs := 30000 |}
    (fun o =>
       match o with
       | Resolved response =>
           Done (Returned
             {| content := [ {| item_type := "text";
                                text := JSON_stringify response |} ];
                isError := false |})
       | Rejected error =>
           match get error "message" with
           | Returned m =>
               Done (Returned
                 {| content := [ {| item_type := "text";
                                    text := VStr ("Error calling tool: " ++ String_ m) |} ];
                    isError := true |})
           | Thrown e => Done (Thrown e)
           end
       end).

(** The handler registered for [CallToolRequestSchema]:
    [handleToolCall(request.params.name, request.params.arguments || {})]. *)
Definition callTool (name : string) (arguments : value) : Async CallToolResult :=
  handleToolCall name (or_else arguments (VObj [])).

(** The request a handler issues first, if any. *)
Definition issued {A} (h : Async A) : option Request :=
  match h with
  | Done _ => None
  | SendRequestToExtensionAndWait r _ => Some r
  end.

(** Runs a handler, settling its successive requests with [outcomes]; [None]
    when the handler is still waiting once [outcomes] is used up. *)
Fixpoint run {A} (h : Async A) (outcomes : list settled) : option (completion A) :=
  match h, outcomes with
  | Done c, _ => Some c
  | SendRequestToExtensionAndWait _ k, o :: rest => run (k o) rest
  | SendRequestToExtensionAndWait _ _, [] => None
  end.

(** ** The outcomes of an exchange *)

(** The four ways a request/response exchange ends. *)
Inductive Exchange : Type :=
| SuccessReply (reply_payload : value)
| ErrorReply (reported : string)
| Timeout
| Disconnect.

Definition succeeded (x : Exchange) : bool :=
  match x with SuccessReply _ => true | _ => false end.

(** Modelled from the spec: the Request Correlator behind
    [sendRequestToExtensionAndWait], whose source is not among the embedded
    files.  Section 4.1: a matching response resolves the exchange with the
    frame's payload if it reports success and fails it with the frame's
    reported error otherwise; timer expiry fails it with a timeout error;
    disconnection fails it with a channel-closed error.  The texts of the
    last two errors are left open. *)
Definition correlate (timeout_text closed_text : string) (x : Exchange) : settled :=
  match x with
  | SuccessReply p => Resolved p
  | ErrorReply reported => Rejected (VError reported)
  | Timeout => Rejected (VError timeout_text)
  | Disconnect => Rejected (VError closed_text)
  end.

(** A result is well formed when its content is a list of text items. *)
Definition is_text_item (i : ContentItem) : bool :=
  (item_type i =? "text")%string.

Definition well_formed (r : CallToolResult) : bool :=
  negb (Nat.eqb (List.length (content r)) 0) && forallb is_text_item (content r).

(** The text of an item is a string, not [undefined]. *)
Definition text_is_string (i : ContentItem) : bool :=
  match text i with VStr _ => true | _ => false end.

End RegisterTools.

(* ===================================================================== *)
(** * The entry script of the native server *)
(* ===================================================================== *)

Module Bootstrap.

(** An [Error] as the process handlers read it. *)
Record ErrorObject : Type := {
  error_message : string;
  error_stack : value
}.

(** What reaches the listeners of ['error'] and ['uncaughtException']: an
    [Error] with its message and its stack, or any other value, since a
    JavaScript program can throw (and emit) whatever it likes.  A bare
    [VError] given as such a value carries no stack. *)
Inductive Raised : Type :=
| RaisedError (error : ErrorObject)
| RaisedValue (v : value).

(** [`${error.message}`]: the read throws on [null] and [undefined]. *)
Definition message_text (error : Raised) : completion string :=
  match error with
  | RaisedError e => Returned (error_message e)
  | RaisedValue v =>
      match get v "message" with
      | Returned m => Returned (String_ m)
      | Thrown e => Thrown e
      end
  end.

(** [`${error.stack}`], evaluated once [error.message] has been read. *)
Definition stack_text (error : Raised) : string :=
  match error with
  | RaisedError e => String_ (error_stack e)
  | RaisedValue v => String_ (get_opt v "stack")
  end.

(** What the script cannot decide: the clock behind [new Date().toISOString()]
    and whether [appendFileSync] succeeds, at the n-th call of [log]. *)
Record Environment : Type := {
  timestamp_at : nat -> string;
  appendFileSync_at : nat -> completion unit
}.

(** The process: every line handed to [appendFileSync] so far, with whether
    the append went through, and the exit code once [process.exit] has run. *)
Record Process : Type := {
  appends : list (string * bool);
  exited : option Z
}.

Definition started : Process := {| appends := []; exited := None |}.

Definition newline : string := String (ascii_of_nat 10) "".

(** The content of the log file: the lines whose append succeeded. *)
Definition log_file (p : Process) : list string :=
  map fst (filter snd (appends p)).

(** The lines [log] was asked to write, written or not. *)
Definition log_attempts (p : Process) : list string :=
  map fst (appends p).

Section WithEnvironment.
Variable env : Environment.

(** [log(message)] *)
Definition log (message : string) (p : Process) : Process :=
  let n := List.length (appends p) in
  let timestamp := timestamp_at env n in
  let logMessage := "[" ++ timestamp ++ "] " ++ message ++ newline in
  match appendFileSync_at env n with
  | Returned _ =>
      {| appends := (appends p ++ [(logMessage, true)])%list; exited := exited p |}
  | Thrown _ =>
      (* If we can't write to log, silently continue *)
      {| appends := (appends p ++ [(logMessage, false)])%list; exited := exited p |}
  end.

(** [process.on('exit', (code) => ...)] *)
Definition on_exit (code : Z) (p : Process) : Process :=
  log ("Process exiting with code: " ++ string_of_Z code) p.

(** The process ends with [code], no listener running any more. *)
Definition end_process (code : Z) (p : Process) : Process :=
  {| appends := appends p; exited := Some code |}.

(** [process.exit(code)] once the ['exit'] listener is registered: the
    listener runs, then the process ends. *)
Definition process_exit (code : Z) (p : Process) : Process :=
  let p' := on_exit code p in
  end_process code p'.

(** The top-level [try] block; [startup] is the outcome of wiring the server
    to the native host and starting it.  The listeners, the one for ['exit']
    among them, are registered by the statements after this block: the
    [process.exit(1)] of the [catch] clause runs before any of them exists,
    so the process ends there without an exit line. *)
Definition main (startup : completion unit) (p : Process) : Process :=
  let p := log "Starting native server..." p in
  match startup with
  | Returned _ => log "Native server started successfully" p
  | Thrown error =>
      let p := log ("Error starting server: " ++
                    (if instanceof_Error error
                     then String_ (get_opt error "message")
                     else String_ error)) p in
      end_process 1 p
  end.

(** [process.on('error', ...)]: the listener throws, before it has called
    [log], when [error.message] cannot be read. *)
Definition on_error (error : Raised) (p : Process) : completion Process :=
  match message_text error with
  | Thrown e => Thrown e
  | Returned message =>
      let p := log ("Process error: " ++ message) p in
      Returned (process_exit 1 p)
  end.

(** [process.on('SIGINT', ...)] *)
Definition on_SIGINT (p : Process) : Process :=
  let p := log "Received SIGINT, shutting down gracefully" p in
  process_exit 0 p.

(** [process.on('SIGTERM', ...)] *)
Definition on_SIGTERM (p : Process) : Process :=
  let p := log "Received SIGTERM, shutting down gracefully" p in
  process_exit 0 p.

(** [process.on('uncaughtException', ...)]: the listener throws, before it
    has called [log], when [error.message] cannot be read. *)
Definition on_uncaughtException (error : Raised) (p : Process) : completion Process :=
  match message_text error with
  | Thrown e => Thrown e
  | Returned message =>
      let p := log ("Uncaught exception: " ++ message ++ newline
                    ++ "Stack: " ++ stack_text error) p in
      Returned (process_exit 1 p)
  end.

(** [process.on('unhandledRejection', ...)] *)
Definition on_unhandledRejection (reason : value) (p : Process) : Process :=
  log ("Unhandled rejection: " ++
       (if instanceof_Error reason
        then String_ (get_opt reason "message")
        else String_ reason)) p.
  (* Don't exit immediately, let the program continue running *)

(** The line [log] hands to [appendFileSync] in process [p]. *)
Definition log_line (message : string) (p : Process) : string :=
  "[" ++ timestamp_at env (List.length (appends p)) ++ "] " ++ message ++ newline.

(** Whether the append made by a call of [log] in process [p] goes through. *)
Definition append_succeeds (p : Process) : bool :=
  match appendFileSync_at env (List.length (appends p)) with
  | Returned _ => true
  | Thrown _ => false
  end.

(** ** The events of the process *)

(** The events for which the script registers a listener with [process.on]. *)
Inductive ProcessEvent : Type :=
| ErrorEvent (error : Raised)
| SIGINT
| SIGTERM
| UncaughtException (error : Raised)
| UnhandledRejection (reason : value).

(** The exit code of Node.js when the ['uncaughtException'] listener itself
    throws (Internal Exception Handler Run-Time Failure). *)
Definition handler_failure_code : Z := 7.

(** The listener registered for the event, and what becomes of the process
    when the listener throws.  An exception of the ['uncaughtException']
    listener ends the process at once with [handler_failure_code], without
    the ['exit'] listener.  An exception of the ['error'] listener goes back
    to whoever emitted the event: this listener leaves the process as it
    was (if nobody catches the exception it is the next uncaught
    exception). *)
Definition handle (ev : ProcessEvent) (p : Process) : Process :=
  match ev with
  | ErrorEvent error =>
      match on_error error p with
      | Returned p' => p'
      | Thrown _ => p
      end
  | SIGINT => on_SIGINT p
  | SIGTERM => on_SIGTERM p
  | UncaughtException error =>
      match on_uncaughtException error p with
      | Returned p' => p'
      | Thrown _ => end_process handler_failure_code p
      end
  | UnhandledRejection reason => on_unhandledRejection reason p
  end.

(** An event reaches its listener only while the process has not exited. *)
Definition deliver (ev : ProcessEvent) (p : Process) : Process :=
  match exited p with
  | Some _ => p
  | None => handle ev p
  end.

Fixpoint deliver_all (evs : list ProcessEvent) (p : Process) : Process :=
  match evs with
  | [] => p
  | ev :: rest => deliver_all rest (deliver ev p)
  end.

(** Whether [error.message] throws: the value is [null] or [undefined]. *)
Definition unreadable (error : Raised) : bool :=
  match error with
  | RaisedError _ => false
  | RaisedValue v => nullish v
  end.

(** The code with which the process ends on an event, if it does. *)
Definition exit_code_of (ev : ProcessEvent) : option Z :=
  match ev with
  | ErrorEvent error => if unreadable error then None else Some 1
  | UncaughtException error =>
      if unreadable error then Some handler_failure_code else Some 1
  | SIGINT | SIGTERM => Some 0
  | UnhandledRejection _ => None
  end.

(** The exit code of the first event of the list whose listener ends the
    process. *)
Fixpoint first_exit (evs : list ProcessEvent) : option Z :=
  match evs with
  | [] => None
  | ev :: rest =>
      match exit_code_of ev with
      | Some code => Some code
      | None => first_exit rest
      end
  end.

(** The message of a value whose [message] can be read. *)
Definition message_of_raised (error : Raised) : string :=
  match error with
  | RaisedError e => error_message e
  | RaisedValue v => String_ (get_opt v "message")
  end.

(** The message the listener of an event hands to [log] first, if it gets
    that far. *)
Definition message_of (ev : ProcessEvent) : option string :=
  match ev with
  | ErrorEvent error =>
      if unreadable error then None
      else Some ("Process error: " ++ message_of_raised error)
  | SIGINT => Some "Received SIGINT, shutting down gracefully"
  | SIGTERM => Some "Received SIGTERM, shutting down gracefully"
  | UncaughtException error =>
      if unreadable error then None
      else Some ("Uncaught exception: " ++ message_of_raised error ++ newline
                 ++ "Stack: " ++ stack_text error)
  | UnhandledRejection reason =>
      Some ("Unhandled rejection: " ++
            (if instanceof_Error reason
             then String_ (get_opt reason "message")
             else String_ reason))
  end.

End WithEnvironment.
End Bootstrap.

(* ===================================================================== *)
(** * The extension's event loop *)
(* ===================================================================== *)

(** The listeners of [native-host.ts] run one at a time, each to its next
    [await]; what is suspended resumes when the promise it waits for settles,
    with other listeners possibly run in between. *)
Module EventLoop.
Import NativeHost.

Inductive Event : Type :=
| Initialised
| PortMessage (m : Message)
| PortDisconnected
| RuntimeMessageReceived (m : RuntimeMessage) (channel : completion Port)
| StartupFired (channel : completion Port)
| Settles (i : nat) (o : settled)
| GetSettles (i : nat) (o : get_outcome)
| BroadcastSettles (o : settled).

(** The module state, the suspended listeners, and everything done so far. *)
Record World : Type := {
  module_state : State;
  suspended : list Task;
  trace : list Effect
}.

Definition park (t : Task) : list Task :=
  match t with Finished => [] | _ => [t] end.

Definition world_after (w : World) (ts : list Task) (r : State * list Effect) : World :=
  {| module_state := fst r; suspended := ts; trace := (trace w ++ snd r)%list |}.

Section WithConstants.
Context {K : Constants}.

Definition step (now : Z) (ev : Event) (w : World) : World :=
  let st := module_state w in
  match ev with
  | Initialised =>
      let '(t, st', e) := initNativeHostListener now st in
      world_after w (suspended w ++ park t)%list (st', e)
  | PortMessage m =>
      let '(t, st', e) := onMessage m now st in
      world_after w (suspended w ++ park t)%list (st', e)
  | PortDisconnected =>
      let '(_, st', e) := onDisconnect now st in
      world_after w (suspended w) (st', e)
  | RuntimeMessageReceived m channel =>
      let '((_, t), st', e) := onRuntimeMessage m channel now st in
      world_after w (suspended w ++ park t)%list (st', e)
  | StartupFired channel =>
      let '(_, st', e) := onStartup channel now st in
      world_after w (suspended w) (st', e)
  | Settles i o =>
      match nth_error (suspended w) i with
      | Some t =>
          let '(t', st', e) := resume t o now st in
          world_after w (firstn i (suspended w) ++ park t'
                         ++ skipn (S i) (suspended w))%list (st', e)
      | None => w
      end
  | GetSettles i o =>
      match nth_error (suspended w) i with
      | Some t =>
          let '(t', st', e) := resume_get t o now st in
          world_after w (firstn i (suspended w) ++ park t'
                         ++ skipn (S i) (suspended w))%list (st', e)
      | None => w
      end
  | BroadcastSettles o =>
      let '(_, st', e) := broadcast_settled o now st in
      world_after w (suspended w) (st', e)
  end.

(** The events on which the module lets go of its port: the port reports
    disconnection, or a runtime message asks to disconnect. *)
Definition drops_port (ev : Event) : bool :=
  match ev with
  | PortDisconnected => true
  | RuntimeMessageReceived m _ => is_native (runtime_type m) DISCONNECT_NATIVE
  | _ => false
  end.

(** A schedule: the events in the order they are handled, each with the
    clock reading of its run. *)
Fixpoint steps (schedule : list (Z * Event)) (w : World) : World :=
  match schedule with
  | [] => w
  | (now, ev) :: rest => steps rest (step now ev w)
  end.

(** The worker right after the module is loaded. *)
Definition loaded (now : Z) : World :=
  {| module_state := initial_state now; suspended := []; trace := [] |}.

(** ** What is suspended *)

(** A trace that broadcasts nothing. *)
Definition quiet (tr : list Effect) : bool :=
  forallb (fun e => negb (is_broadcast e)) tr.

(** The suspended listeners the module can leave behind, by what they do
    when resumed.  One that waits for a tool call or for a read of storage
    finishes without a broadcast.  One that waits for a write to storage
    (the write has been issued, so persistence is past [NotAttempted])
    records the end of the write, broadcasts the current status, and
    finishes.  None of them touches the native port. *)
Inductive expected_task (ph : Phase) : Task -> Prop :=
| expected_Finished : expected_task ph Finished
| expected_tool_call (k : settled -> M Task) :
    (forall o now st, exists tr,
        k o now st = (Finished, st, tr) /\ quiet tr = true) ->
    expected_task ph (AwaitHandleCallTool k)
| expected_write (k : settled -> M Task) :
    ph <> NotAttempted ->
    (forall o now st, exists text,
        k o now st =
          (Finished, st,
           [save_record o;
            Console Log "[native] Broadcasting server status change:";
            RuntimeSendMessage SERVER_STATUS_CHANGED (currentServerStatus st);
            Console Log text])) ->
    expected_task ph (AwaitStorageSet k)
| expected_read (k : get_outcome -> M Task) :
    (forall o now st, exists st' tr,
        k o now st = (Finished, st', tr) /\ quiet tr = true /\
        nativePort st' = nativePort st) ->
    expected_task ph (AwaitStorageGet k).

(** The invariant of the event loop: so far every broadcast came after a
    write that had ended, and what is suspended is as expected. *)
Definition consistent (w : World) : Prop :=
  persisted_before_broadcast NotAttempted (trace w) = true /\
  Forall (expected_task (phase_after NotAttempted (trace w))) (suspended w).

End WithConstants.
End EventLoop.

(* ===================================================================== *)
(** * Concrete inputs *)
(* ===================================================================== *)

Import NativeHost.
Import EventLoop.

(** Constants used to run the definitions on concrete inputs. *)
Definition sample_constants : Constants := {|
  NATIVE_HOST_NAME := "com.example.nativehost";
  NATIVE_HOST_DEFAULT_PORT := 12306;
  STORAGE_KEYS_SERVER_STATUS := "serverStatus";
  SUCCESS_MESSAGES_TOOL_EXECUTED := "Tool executed successfully";
  SUCCESS_MESSAGES_SERVER_STARTED := "Server started successfully";
  SUCCESS_MESSAGES_SERVER_STOPPED := "Server stopped successfully";
  ERROR_MESSAGES_NATIVE_CONNECTION_FAILED := "Failed to connect to native host";
  ERROR_MESSAGES_NATIVE_DISCONNECTED := "Native connection disconnected";
  ERROR_MESSAGES_SERVER_STATUS_LOAD_FAILED := "Failed to load server status";
  ERROR_MESSAGES_SERVER_STATUS_SAVE_FAILED := "Failed to save server status";
  ERROR_MESSAGES_TOOL_EXECUTION_FAILED := "Tool execution failed"
|}.

Definition process_data_frame : Message :=
  {| type := TNative PROCESS_DATA;
     requestId := VStr "req-7";
     payload := VObj [("rows", VArr [VNum 1; VNum 2])] |}.

(** A process-data frame whose request id is the number 0. *)
Definition process_data_frame_0 : Message :=
  {| type := TNative PROCESS_DATA;
     requestId := VNum 0;
     payload := VObj [("rows", VArr [VNum 1; VNum 2])] |}.

Definition list_tools_frame : Message :=
  {| type := TNative LIST_TOOLS; requestId := VStr "req-8"; payload := VObj [] |}.

Definition tool_call_frame : Message :=
  {| type := TNative CALL_TOOL;
     requestId := VStr "req-1";
     payload := VObj [("name", VStr "chrome_navigate"); ("args", VObj [])] |}.

Definition tool_call_without_id : Message :=
  {| type := TNative CALL_TOOL;
     requestId := VUndefined;
     payload := VObj [("name", VStr "chrome_navigate")] |}.

Definition server_started_frame : Message :=
  {| type := TNative SERVER_STARTED;
     requestId := VUndefined;
     payload := VObj [("port", VNum 9222)] |}.

Definition server_stopped_frame : Message :=
  {| type := TNative SERVER_STOPPED; requestId := VUndefined; payload := VUndefined |}.

(** The worker connects and gets port 7; a tool-call frame with request id
    [req-1] arrives; while the tool runs the native port disconnects; then
    the tool call fails. *)
Definition disconnect_during_tool_call : list (Z * Event) :=
  [(1, RuntimeMessageReceived (BareString (TNative CONNECT_NATIVE)) (Returned 7%nat));
   (2, PortMessage tool_call_frame);
   (3, PortDisconnected);
   (4, Settles 0 (Rejected (VError "navigation failed")))].

(* ===================================================================== *)
(** * Further observations *)
(* ===================================================================== *)

(** The ports a trace disconnects. *)
Fixpoint disconnected (tr : list Effect) : list Port :=
  match tr with
  | [] => []
  | PortDisconnect p :: rest => p :: disconnected rest
  | _ :: rest => disconnected rest
  end.

(** The status [loadServerStatus] resolves with: what is stored under the
    key, or the default made at that moment. *)
Definition loaded_status (o : get_outcome) (now : Z) : ServerStatus :=
  match o with
  | GetResolved (Some status) => status
  | _ => {| isRunning := false; port := VUndefined; lastUpdated := now |}
  end.

(** The first test of the runtime listener. *)
Definition is_connect_request (m : RuntimeMessage) : bool :=
  is_bare_native m CONNECT_NATIVE || is_native (runtime_type m) CONNECT_NATIVE.

(** Whether one of the branches of the runtime listener takes the message. *)
Definition is_handled (m : RuntimeMessage) : bool :=
  is_connect_request m
  || is_native (runtime_type m) PING_NATIVE
  || is_native (runtime_type m) DISCONNECT_NATIVE
  || is_background (runtime_type m) GET_SERVER_STATUS
  || is_background (runtime_type m) REFRESH_SERVER_STATUS.

Definition is_response (f : Posted) : bool :=
  match f with Response _ _ => true | Typed _ _ => false end.

(** The request ids with which the listener on the native port enters one of
    its two answering branches. *)
Definition request_id_of (ev : Event) : list value :=
  match ev with
  | PortMessage m =>
      if (is_native (type m) PROCESS_DATA || is_native (type m) CALL_TOOL)
         && truthy (requestId m)
      then [requestId m] else []
  | _ => []
  end.

Definition request_ids (schedule : list (Z * Event)) : list value :=
  flat_map (fun e => request_id_of (snd e)) schedule.

(** A posted frame is accounted for when it is the start frame or a response
    to one of the request ids [ids]. *)
Definition solicited (ids : list value) (f : Port * Posted) : Prop :=
  match snd f with
  | Response rid _ => In rid ids
  | Typed t _ => t = START
  end.

(** A suspended listener that, whenever and however it is resumed, finishes,
    opens no channel, and posts nothing but responses to [ids]. *)
Definition orderly (ids : list value) (t : Task) : Prop :=
  match t with
  | Finished => True
  | AwaitHandleCallTool k | AwaitStorageSet k =>
      forall o now st,
        result_of (k o now st) = Finished /\
        channels_opened (trace_of (k o now st)) = 0%nat /\
        Forall (solicited ids) (posted (trace_of (k o now st)))
  | AwaitStorageGet k =>
      forall o now st,
        result_of (k o now st) = Finished /\
        channels_opened (trace_of (k o now st)) = 0%nat /\
        Forall (solicited ids) (posted (trace_of (k o now st)))
  end.

(** What is suspended is orderly and what has been posted is accounted
    for. *)
Definition tidy (ids : list value) (w : World) : Prop :=
  Forall (orderly ids) (suspended w) /\
  Forall (solicited ids) (posted (trace w)).

(** The events on which the server status can change: the two notifications
    of the native host, and a read of storage that settles. *)
Definition may_change_status (ev : Event) : bool :=
  match ev with
  | PortMessage m =>
      is_native (type m) SERVER_STARTED || is_native (type m) SERVER_STOPPED
  | GetSettles _ _ => true
  | _ => false
  end.

Section ExpectedOfRuntime.
Context {K : Constants}.

(** The port a connect request asks for:
    [typeof message === 'object' && message.port ? message.port : DEFAULT_PORT]. *)
Definition requested_port (m : RuntimeMessage) : value :=
  match m with
  | ObjectMessage _ p => if truthy p then p else VNum NATIVE_HOST_DEFAULT_PORT
  | BareString _ => VNum NATIVE_HOST_DEFAULT_PORT
  end.

End ExpectedOfRuntime.

(** Sample runtime messages and sample surroundings of the process. *)
Definition connect_to_4000 : RuntimeMessage :=
  ObjectMessage (TNative CONNECT_NATIVE) (VNum 4000).

Definition disconnect_request : RuntimeMessage :=
  ObjectMessage (TNative DISCONNECT_NATIVE) VUndefined.

Definition refresh_request : RuntimeMessage :=
  ObjectMessage (TBackground REFRESH_SERVER_STATUS) VUndefined.

Definition bare_ping : RuntimeMessage := BareString (TNative PING_NATIVE).

Definition stored_status : ServerStatus :=
  {| isRunning := true; port := VNum 9222; lastUpdated := 40 |}.

Definition holding_port_7 : World :=
  {| module_state := connected_to 7%nat 0; suspended := []; trace := [] |}.

Definition read_only_disk : Bootstrap.Environment :=
  {| Bootstrap.timestamp_at := fun _ => "2025-01-01T00:00:00.000Z";
     Bootstrap.appendFileSync_at := fun _ => Thrown (VError "EROFS") |}.

(* ===================================================================== *)
(** * Properties of the native-port listener *)
(* ===================================================================== *)

(** Unfolds the listener on the native port down to the state-passing
    function it denotes. *)
Ltac run_listener :=
  unfold onMessage, saveServerStatus, broadcastServerStatusChange,
    postMessage_if_connected, console, emit, read, Date_now,
    set_currentServerStatus, set_nativePort, bind, ret,
    result_of, state_of, trace_of.

Section ListenerFacts.
Context {K : Constants}.

(** The run of the listener on a process-data frame with a request id,
    while the module holds port [p]. *)
Lemma onMessage_process_data (message : Message) (now : Z) (st : State) (p : Port) :
  type message = TNative PROCESS_DATA ->
  truthy (requestId message) = true ->
  nativePort st = Some p ->
  onMessage message now st =
    (Finished, st,
     [Console Log "[native] Received message from native host:";
      Console Log ("[native] Processing data request with ID: "
                   ++ String_ (requestId message));
      Console Log "[native] Sending process data response:";
      PostMessage p
        (Response (requestId message)
           (VObj [("status", VStr "success");
                  ("message", VStr SUCCESS_MESSAGES_TOOL_EXECUTED);
                  ("data", payload message)]))]).
Proof.
  intros Hty Hid Hport. run_listener.
  rewrite Hty, Hid. cbn. rewrite Hport. reflexivity.
Qed.

(** The same run while the module holds no port: the response is built and
    logged, and [nativePort?.postMessage] sends nothing. *)
Lemma onMessage_process_data_without_port (message : Message) (now : Z) (st : State) :
  type message = TNative PROCESS_DATA ->
  truthy (requestId message) = true ->
  nativePort st = None ->
  onMessage message now st =
    (Finished, st,
     [Console Log "[native] Received message from native host:";
      Console Log ("[native] Processing data request with ID: "
                   ++ String_ (requestId message));
      Console Log "[native] Sending process data response:"]).
Proof.
  intros Hty Hid Hport. run_listener.
  rewrite Hty, Hid. cbn. rewrite Hport. reflexivity.
Qed.

(** C6. A process-data frame whose request id passes the listener's test
    [message.requestId] (it is truthy: present, and neither 0 nor the empty
    string) is answered with exactly one frame on the port the module holds:
    [responseToRequestId] is the frame's request id, the payload has status
    ['success'] and, under [data], the received payload as it came.  The send
    is [nativePort?.postMessage], so nothing is sent should the module hold
    no port.  The listener then has finished and the module state is as
    before. *)
Theorem process_data_is_echoed (message : Message) (now : Z) (st : State) :
  type message = TNative PROCESS_DATA ->
  truthy (requestId message) = true ->
  let r := onMessage message now st in
  result_of r = Finished /\
  state_of r = st /\
  exists reply,
    posted (trace_of r)
    = match nativePort st with
      | Some p => [(p, Response (requestId message) reply)]
      | None => []
      end /\
    get_opt reply "status" = VStr "success" /\
    get_opt reply "data" = payload message.
Proof.
  intros Hty Hid. cbv zeta.
  destruct (nativePort st) as [p |] eqn:Hport.
  - rewrite (onMessage_process_data message now st p Hty Hid Hport).
    unfold result_of, state_of, trace_of. cbn [fst snd posted].
    repeat split. eexists. repeat split.
  - rewrite (onMessage_process_data_without_port message now st Hty Hid Hport).
    unfold result_of, state_of, trace_of. cbn [fst snd posted].
    repeat split.
    exists (VObj [("status", VStr "success");
                  ("message", VStr SUCCESS_MESSAGES_TOOL_EXECUTED);
                  ("data", payload message)]).
    repeat split.
Qed.

Lemma not_in_vocabulary (ty : MessageType) :
  in_vocabulary ty = false ->
  is_native ty PROCESS_DATA = false /\
  is_native ty CALL_TOOL = false /\
  is_native ty SERVER_STARTED = false /\
  is_native ty SERVER_STOPPED = false /\
  is_native ty ERROR_FROM_NATIVE_HOST = false.
Proof.
  unfold in_vocabulary, vocabulary. simpl. intros H.
  repeat (apply orb_false_iff in H; destruct H as [? H]).
  repeat split; assumption.
Qed.

(** C7. A frame whose type is none of the types the listener acts on gets no
    response frame and changes neither the server status nor the native
    port: the run consists of the two console lines, the second being the
    warning about an unknown type. *)
Theorem unknown_type_is_only_logged (message : Message) (now : Z) (st : State) :
  in_vocabulary (type message) = false ->
  let r := onMessage message now st in
  result_of r = Finished /\
  state_of r = st /\
  posted (trace_of r) = [] /\
  trace_of r = only_logged_as_unknown.
Proof.
  intros H. apply not_in_vocabulary in H.
  destruct H as (H1 & H2 & H3 & H4 & H5).
  run_listener. rewrite H1, H2, H3, H4, H5. cbn. repeat split.
Qed.

(** C10. A tool-call or process-data frame without a request id (the
    listener's test [message.requestId] fails, as it does for an absent id)
    reaches the last [else]: the tool is not called, nothing is echoed, no
    frame is posted, the state is unchanged, and the run consists of the two
    console lines of an unknown type. *)
Theorem request_without_id_falls_through (message : Message) (now : Z) (st : State) :
  type message = TNative CALL_TOOL \/ type message = TNative PROCESS_DATA ->
  truthy (requestId message) = false ->
  let r := onMessage message now st in
  result_of r = Finished /\
  state_of r = st /\
  posted (trace_of r) = [] /\
  trace_of r = only_logged_as_unknown.
Proof.
  intros [Hty | Hty] Hid; run_listener; rewrite Hty, Hid; cbn; repeat split.
Qed.

(** C2, as the listener has it.  For a tool-call frame with a request id,
    the listener calls the tool and is suspended without having posted
    anything.  When the tool call then fails, whatever it fails with and
    whatever happened meanwhile, the listener finishes, leaves the state as it
    finds it, and posts at most one frame: if the module still holds a port,
    exactly one frame on it, with [responseToRequestId] the frame's request id
    and a payload of status ['error']; if the port has been dropped in the
    meantime, none. *)
Theorem tool_failure_is_answered_if_connected
    (message : Message) (now : Z) (st : State)
    (error : value) (now' : Z) (st' : State) :
  type message = TNative CALL_TOOL ->
  truthy (requestId message) = true ->
  exists k,
    let r := onMessage message now st in
    result_of r = AwaitHandleCallTool k /\
    state_of r = st /\
    posted (trace_of r) = [] /\
    In (HandleCallTool (payload message)) (trace_of r) /\
    let r' := k (Rejected error) now' st' in
    result_of r' = Finished /\
    state_of r' = st' /\
    get_opt (errorResponse_payload error) "status" = VStr "error" /\
    posted (trace_of r') =
      match nativePort st' with
      | Some p => [(p, Response (requestId message) (errorResponse_payload error))]
      | None => []
      end.
Proof.
  intros Hty Hid. run_listener. rewrite Hty, Hid. cbn.
  eexists. split; [reflexivity|].
  repeat split.
  - auto.
  - destruct (nativePort st'); reflexivity.
  - destruct (nativePort st'); reflexivity.
  - destruct (nativePort st'); reflexivity.
Qed.

(** ** Status notifications *)

Lemma write_ended_save_record (o : settled) : write_ended (save_record o) = true.
Proof.
  destruct o; cbn [write_ended save_record];
    [reflexivity | apply String.eqb_refl].
Qed.

Lemma broadcasts_save_record (o : settled) (rest : list Effect) :
  broadcasts (save_record o :: rest) = broadcasts rest.
Proof. destruct o; reflexivity. Qed.

(** The run of the listener on a server-started frame, up to its [await] and
    from it. *)
Lemma onMessage_started (message : Message) (now : Z) (st : State) :
  type message = TNative SERVER_STARTED ->
  exists k text,
    onMessage message now st =
      (AwaitStorageSet k,
       with_status st (started_status (get_opt (payload message) "port") now),
       [Console Log "[native] Received message from native host:";
        Console Log ("[native] Server started notification received for port: "
                     ++ String_ (get_opt (payload message) "port"));
        Console Log "[native] Saving server status to storage:";
        StorageSet STORAGE_KEYS_SERVER_STATUS
          (started_status (get_opt (payload message) "port") now)]) /\
    forall o now' st',
      k o now' st' =
        (Finished, st',
         [save_record o;
          Console Log "[native] Broadcasting server status change:";
          RuntimeSendMessage SERVER_STATUS_CHANGED (currentServerStatus st');
          Console Log text]).
Proof.
  intros Hty. run_listener. rewrite Hty. cbn.
  do 2 eexists. split; [reflexivity|].
  intros [v | e] now' st'; reflexivity.
Qed.

(** The same for a server-stopped frame. *)
Lemma onMessage_stopped (message : Message) (now : Z) (st : State) :
  type message = TNative SERVER_STOPPED ->
  exists k text,
    onMessage message now st =
      (AwaitStorageSet k,
       with_status st (stopped_status st now),
       [Console Log "[native] Received message from native host:";
        Console Log "[native] Server stopped notification received";
        Console Log "[native] Saving server status to storage:";
        StorageSet STORAGE_KEYS_SERVER_STATUS (stopped_status st now)]) /\
    forall o now' st',
      k o now' st' =
        (Finished, st',
         [save_record o;
          Console Log "[native] Broadcasting server status change:";
          RuntimeSendMessage SERVER_STATUS_CHANGED (currentServerStatus st');
          Console Log text]).
Proof.
  intros Hty. run_listener. rewrite Hty. cbn.
  do 2 eexists. split; [reflexivity|].
  intros [v | e] now' st'; reflexivity.
Qed.

(** C4. On a server-started or server-stopped frame the listener issues the
    write of the new status and is suspended on it, having broadcast
    nothing.  It goes on only when the write has settled: what it does first
    is record the end of the write, success or failure, and only then does it
    broadcast, once.  So in the listener's trace the broadcast comes after a
    write that has ended. *)
Theorem status_is_persisted_before_broadcast
    (message : Message) (now : Z) (st : State)
    (o : settled) (now' : Z) (st' : State) :
  type message = TNative SERVER_STARTED \/ type message = TNative SERVER_STOPPED ->
  exists k,
    let r := onMessage message now st in
    result_of r = AwaitStorageSet k /\
    In (StorageSet STORAGE_KEYS_SERVER_STATUS (currentServerStatus (state_of r)))
       (trace_of r) /\
    broadcasts (trace_of r) = [] /\
    let r' := k o now' st' in
    result_of r' = Finished /\
    (exists rest, trace_of r' = save_record o :: rest) /\
    broadcasts (trace_of r') = [currentServerStatus st'] /\
    persisted_before_broadcast NotAttempted (trace_of r ++ trace_of r') = true.
Proof.
  intros [Hty | Hty];
    [ destruct (onMessage_started message now st Hty) as (k & text & Hrun & Hk)
    | destruct (onMessage_stopped message now st Hty) as (k & text & Hrun & Hk) ];
    exists k; cbv zeta; rewrite Hrun, Hk; unfold result_of, state_of, trace_of;
    cbn [fst snd];
    (split; [reflexivity|]);
    (split; [cbn; auto 6|]);
    (split; [reflexivity|]);
    (split; [reflexivity|]);
    (split; [eexists; reflexivity|]);
    (split; [rewrite broadcasts_save_record; reflexivity|]);
    destruct o; cbn; rewrite ?String.eqb_refl; reflexivity.
Qed.

(** ** Connecting *)

(** C9.  While the module holds a port, [connectNativeHost] changes nothing,
    opens no channel, posts nothing: it only writes to the console.  When the
    module holds no port, it asks for one channel, and if it gets one it keeps
    it and posts on it the start frame carrying the port number asked for (if
    it gets none, the state is unchanged and nothing is posted).  Hence a call
    made after a call that left the module connected does nothing at all. *)
Theorem connect_is_idempotent_while_connected
    (port : value) (channel : completion Port) (now : Z) (st : State)
    (port' : value) (channel' : completion Port) (now' : Z) :
  let r := connectNativeHost port channel now st in
  let r' := connectNativeHost port' channel' now' (state_of r) in
  match nativePort st with
  | Some _ =>
      state_of r = st /\
      channels_opened (trace_of r) = 0%nat /\
      posted (trace_of r) = [] /\
      forallb is_console (trace_of r) = true
  | None =>
      channels_opened (trace_of r) = 1%nat /\
      match channel with
      | Returned q =>
          state_of r = {| nativePort := Some q;
                          currentServerStatus := currentServerStatus st |} /\
          posted (trace_of r) =
            [(q, Typed START
                   (VObj [("port",
                           match port with
                           | VUndefined => VNum NATIVE_HOST_DEFAULT_PORT
                           | _ => port
                           end)]))]
      | Thrown _ => state_of r = st /\ posted (trace_of r) = []
      end
  end /\
  (nativePort (state_of r) <> None ->
   state_of r' = state_of r /\
   channels_opened (trace_of r') = 0%nat /\
   posted (trace_of r') = []).
Proof.
  assert (Hconnected : forall v c n s,
             nativePort s <> None ->
             state_of (connectNativeHost v c n s) = s /\
             channels_opened (trace_of (connectNativeHost v c n s)) = 0%nat /\
             posted (trace_of (connectNativeHost v c n s)) = [] /\
             forallb is_console (trace_of (connectNativeHost v c n s)) = true).
  { intros v c n s Hs.
    unfold connectNativeHost, console, emit, read, bind, state_of, trace_of.
    destruct (nativePort s) as [q |]; [| congruence].
    cbn. repeat split. }
  cbv zeta. split.
  - destruct (nativePort st) as [q |] eqn:Hport.
    + apply Hconnected. congruence.
    + unfold connectNativeHost, console, emit, read, set_nativePort, bind,
        state_of, trace_of.
      rewrite Hport. destruct channel as [q | e]; cbn.
      * repeat split.
      * repeat split.
  - intros Hr.
    destruct (Hconnected port' channel' now' _ Hr) as (H1 & H2 & H3 & _).
    repeat split; assumption.
Qed.

End ListenerFacts.

(* ===================================================================== *)
(** * Properties of schedules *)
(* ===================================================================== *)

Section ScheduleFacts.
Context {K : Constants}.

Lemma step_PortMessage (now : Z) (m : Message) (w : World)
    (t : Task) (st' : State) (e : list Effect) :
  onMessage m now (module_state w) = (t, st', e) ->
  step now (PortMessage m) w
  = world_after w (suspended w ++ park t)%list (st', e).
Proof. intros H. unfold step. rewrite H. reflexivity. Qed.

Lemma step_Settles (now : Z) (i : nat) (o : settled) (w : World)
    (t t' : Task) (st' : State) (e : list Effect) :
  nth_error (suspended w) i = Some t ->
  resume t o now (module_state w) = (t', st', e) ->
  step now (Settles i o) w
  = world_after w (firstn i (suspended w) ++ park t'
                   ++ skipn (S i) (suspended w))%list (st', e).
Proof. intros Hi H. unfold step. rewrite Hi, H. reflexivity. Qed.

(** The answer to a status query: the current status, and nothing changes. *)
Lemma status_query_answer (now : Z) (channel : completion Port) (w : World) :
  step now (RuntimeMessageReceived status_query channel) w
  = world_after w (suspended w)
      (module_state w,
       [Console Log "[native] Received runtime message:";
        Console Log "[native] Get server status request received";
        Console Log "[native] Sending server status response:";
        SendResponse
          (StatusResponse true None (currentServerStatus (module_state w))
             (is_connected (module_state w)))]).
Proof.
  unfold step, world_after. cbn. rewrite app_nil_r. reflexivity.
Qed.

Lemma posted_app (a b : list Effect) :
  posted (a ++ b) = (posted a ++ posted b)%list.
Proof.
  induction a as [| e a IH]; [reflexivity|].
  destruct e; simpl; rewrite IH; reflexivity.
Qed.

Lemma responses_app (a b : list Effect) :
  responses (a ++ b) = (responses a ++ responses b)%list.
Proof.
  induction a as [| e a IH]; [reflexivity|].
  destruct e; simpl; rewrite IH; reflexivity.
Qed.

(** C3. Start from any state with nothing suspended.  A server-started frame
    whose payload has port [p] is processed (its write to storage settling
    either way), then a server-stopped frame is processed likewise.  The
    server status is then not running, with port [p] and the time of the stop;
    a status query that follows is answered with exactly that status and
    changes nothing. *)
Theorem port_is_retained_after_stop
    (p : value) (started stopped : Message) (st : State)
    (n1 n2 n3 n4 n5 : Z) (o1 o2 : settled) (channel : completion Port) :
  type started = TNative SERVER_STARTED ->
  get_opt (payload started) "port" = p ->
  type stopped = TNative SERVER_STOPPED ->
  let w0 := {| module_state := st; suspended := []; trace := [] |} in
  let w := steps [(n1, PortMessage started); (n2, Settles 0 o1);
                  (n3, PortMessage stopped); (n4, Settles 0 o2)] w0 in
  let w' := step n5 (RuntimeMessageReceived status_query channel) w in
  let final := {| isRunning := false; port := p; lastUpdated := n3 |} in
  currentServerStatus (module_state w) = final /\
  nativePort (module_state w) = nativePort st /\
  suspended w = [] /\
  module_state w' = module_state w /\
  responses (trace w') = [StatusResponse true None final (is_connected st)].
Proof.
  intros Hstarted Hp Hstopped. cbv zeta. cbn [steps].
  destruct (onMessage_started started n1 st Hstarted) as (k1 & t1 & Hrun1 & Hk1).
  rewrite Hp in Hrun1.
  match goal with
  | |- context [step n1 (PortMessage started) ?w] =>
      rewrite (step_PortMessage n1 started w _ _ _ Hrun1);
      unfold world_after;
      cbn [fst snd park app suspended trace module_state]
  end.
  match goal with
  | |- context [step n2 (Settles 0 o1) ?w] =>
      rewrite (step_Settles n2 0 o1 w _ _ _ _ eq_refl (Hk1 o1 n2 _));
      unfold world_after;
      cbn [fst snd park app firstn skipn suspended trace module_state]
  end.
  match goal with
  | |- context [step n3 (PortMessage stopped) ?w] =>
      destruct (onMessage_stopped stopped n3 (module_state w) Hstopped)
        as (k2 & t2 & Hrun2 & Hk2);
      rewrite (step_PortMessage n3 stopped w _ _ _ Hrun2);
      unfold world_after;
      cbn [fst snd park app suspended trace module_state]
  end.
  match goal with
  | |- context [step n4 (Settles 0 o2) ?w] =>
      rewrite (step_Settles n4 0 o2 w _ _ _ _ eq_refl (Hk2 o2 n4 _));
      unfold world_after;
      cbn [fst snd park app firstn skipn suspended trace module_state]
  end.
  rewrite status_query_answer.
  unfold world_after. cbn [fst snd module_state suspended trace].
  repeat split.
  rewrite !responses_app. destruct o1, o2; reflexivity.
Qed.

End ScheduleFacts.

(* ===================================================================== *)
(** * An invariant of the event loop *)
(* ===================================================================== *)

Section InvariantFacts.
Context {K : Constants}.

Lemma persisted_app (ph : Phase) (a b : list Effect) :
  persisted_before_broadcast ph (a ++ b)
  = persisted_before_broadcast ph a
    && persisted_before_broadcast (phase_after ph a) b.
Proof.
  revert ph. induction a as [| e a IH]; intros ph; simpl.
  - reflexivity.
  - rewrite IH, andb_assoc. reflexivity.
Qed.

Lemma phase_after_app (ph : Phase) (a b : list Effect) :
  phase_after ph (a ++ b) = phase_after (phase_after ph a) b.
Proof. apply fold_left_app. Qed.

Lemma quiet_is_persisted (tr : list Effect) (ph : Phase) :
  quiet tr = true -> persisted_before_broadcast ph tr = true.
Proof.
  revert ph. induction tr as [| e tr IH]; intros ph H; simpl in *.
  - reflexivity.
  - apply andb_true_iff in H. destruct H as [He Htr].
    rewrite (IH _ Htr). destruct (is_broadcast e); [discriminate | reflexivity].
Qed.

Lemma advance_keeps_going (ph : Phase) (e : Effect) :
  ph <> NotAttempted -> advance ph e <> NotAttempted.
Proof.
  destruct ph; simpl; try congruence.
  destruct (write_ended e); congruence.
Qed.

Lemma phase_after_keeps_going (tr : list Effect) (ph : Phase) :
  ph <> NotAttempted -> phase_after ph tr <> NotAttempted.
Proof.
  revert ph. induction tr as [| e tr IH]; intros ph H; simpl.
  - exact H.
  - apply IH, advance_keeps_going, H.
Qed.

Lemma phase_after_write_issued (tr : list Effect) (ph : Phase) (key : string)
    (s : ServerStatus) :
  In (StorageSet key s) tr -> phase_after ph tr <> NotAttempted.
Proof.
  revert ph. induction tr as [| e tr IH]; intros ph Hin; simpl in *.
  - contradiction.
  - destruct Hin as [He | Hin].
    + subst e. apply phase_after_keeps_going.
      destruct ph; simpl; congruence.
    + apply IH, Hin.
Qed.

Lemma expected_task_later (ph ph' : Phase) (t : Task) :
  (ph <> NotAttempted -> ph' <> NotAttempted) ->
  expected_task ph t -> expected_task ph' t.
Proof.
  intros Hph Ht. destruct Ht; constructor; auto.
Qed.

Lemma write_resumption_is_persisted (ph : Phase) (o : settled)
    (s : ServerStatus) (text : string) :
  ph <> NotAttempted ->
  persisted_before_broadcast ph
    [save_record o;
     Console Log "[native] Broadcasting server status change:";
     RuntimeSendMessage SERVER_STATUS_CHANGED s;
     Console Log text] = true.
Proof.
  intros Hph. pose proof (write_ended_save_record o) as Hend.
  assert (Hb : is_broadcast (save_record o) = false) by (destruct o; reflexivity).
  cbn [persisted_before_broadcast]. rewrite Hb.
  destruct ph; [congruence | |]; cbn [advance]; rewrite ?Hend; reflexivity.
Qed.

(** Each listener, run from any state, broadcasts nothing before its first
    suspension and leaves an expected task. *)
Lemma onMessage_is_expected (m : Message) (now : Z) (st : State) :
  exists t st' e,
    onMessage m now st = (t, st', e) /\
    quiet e = true /\
    forall ph, expected_task (phase_after ph e) t.
Proof.
  destruct (type m) as [[] | b | v] eqn:Hty;
    try (run_listener; rewrite Hty; cbn;
         do 3 eexists; split; [reflexivity|]; split; [reflexivity|];
         intros ph; constructor; fail).
  - (* PROCESS_DATA *)
    run_listener. rewrite Hty. cbn.
    destruct (truthy (requestId m)); cbn.
    + destruct (nativePort st); cbn;
        do 3 eexists; (split; [reflexivity|]); (split; [reflexivity|]);
        intros ph; constructor.
    + do 3 eexists. split; [reflexivity|]. split; [reflexivity|].
      intros ph; constructor.
  - (* CALL_TOOL *)
    run_listener. rewrite Hty. cbn.
    destruct (truthy (requestId m)); cbn.
    + do 3 eexists. split; [reflexivity|]. split; [reflexivity|].
      intros ph. constructor.
      intros [r | err] now' st'; cbn; destruct (nativePort st'); cbn;
        eexists; split; reflexivity.
    + do 3 eexists. split; [reflexivity|]. split; [reflexivity|].
      intros ph; constructor.
  - (* SERVER_STARTED *)
    destruct (onMessage_started m now st Hty) as (k & text & Hrun & Hk).
    do 3 eexists. split; [exact Hrun|]. split; [reflexivity|].
    intros ph. constructor.
    + eapply phase_after_write_issued. cbn. auto 6.
    + intros o now' st'. exists text. apply Hk.
  - (* SERVER_STOPPED *)
    destruct (onMessage_stopped m now st Hty) as (k & text & Hrun & Hk).
    do 3 eexists. split; [exact Hrun|]. split; [reflexivity|].
    intros ph. constructor.
    + eapply phase_after_write_issued. cbn. auto 6.
    + intros o now' st'. exists text. apply Hk.
Qed.

Lemma onRuntimeMessage_is_expected (m : RuntimeMessage) (c : completion Port)
    (now : Z) (st : State) :
  exists returned t st' e,
    onRuntimeMessage m c now st = (returned, t, st', e) /\
    quiet e = true /\
    forall ph, expected_task (phase_after ph e) t.
Proof.
  unfold onRuntimeMessage, connectNativeHost, loadServerStatus, console, emit,
    read, Date_now, set_nativePort, set_currentServerStatus, bind, ret.
  destruct m as [[[] | [] | v] | [[] | [] | v] p]; cbn;
    destruct (nativePort st); destruct c; cbn;
    do 4 eexists; (split; [reflexivity|]); (split; [reflexivity|]);
    intros ph;
    first [ apply expected_Finished
          | apply expected_read; intros [[? |] | ?] ? ?; cbn;
            do 2 eexists; repeat split ].
Qed.

Lemma initNativeHostListener_is_expected (now : Z) (st : State) :
  exists t st' e,
    initNativeHostListener now st = (t, st', e) /\
    quiet e = true /\
    forall ph, expected_task (phase_after ph e) t.
Proof.
  unfold initNativeHostListener, loadServerStatus, console, emit, read,
    Date_now, set_currentServerStatus, bind, ret. cbn.
  do 3 eexists. split; [reflexivity|]. split; [reflexivity|].
  intros ph. apply expected_read.
  intros [[? |] | ?] ? ?; cbn; do 2 eexists; repeat split.
Qed.

Lemma Forall_replaced {A} (P : A -> Prop) (l x : list A) (i : nat) :
  Forall P l -> Forall P x ->
  Forall P (firstn i l ++ x ++ skipn (S i) l).
Proof.
  intros Hl Hx.
  assert (Hfirst : Forall P (firstn i l)).
  { rewrite <- (firstn_skipn i l) in Hl. apply Forall_app in Hl. apply Hl. }
  assert (Hlast : Forall P (skipn (S i) l)).
  { rewrite <- (firstn_skipn (S i) l) in Hl. apply Forall_app in Hl. apply Hl. }
  apply Forall_app. split; [exact Hfirst|].
  apply Forall_app. split; assumption.
Qed.

Lemma expected_park (ph : Phase) (t : Task) :
  expected_task ph t -> Forall (expected_task ph) (park t).
Proof.
  intros Ht. destruct Ht; simpl; repeat constructor; assumption.
Qed.

Lemma expected_tasks_later (ph : Phase) (e : list Effect) (ts : list Task) :
  Forall (expected_task ph) ts ->
  Forall (expected_task (phase_after ph e)) ts.
Proof.
  apply Forall_impl. intros t. apply expected_task_later.
  apply phase_after_keeps_going.
Qed.

(** What it takes for a run to keep the world consistent. *)
Lemma consistent_world_after (w : World) (ts : list Task) (st' : State)
    (e : list Effect) :
  consistent w ->
  persisted_before_broadcast (phase_after NotAttempted (trace w)) e = true ->
  Forall (expected_task (phase_after (phase_after NotAttempted (trace w)) e)) ts ->
  consistent (world_after w ts (st', e)).
Proof.
  intros [Htrace _] He Hts. unfold consistent, world_after.
  cbn [trace suspended fst snd].
  rewrite persisted_app, phase_after_app, Htrace, He. split; [reflexivity | exact Hts].
Qed.

(** Every event keeps the world consistent. *)
Lemma step_is_consistent (now : Z) (ev : Event) (w : World) :
  consistent w -> consistent (step now ev w).
Proof.
  intros Hw. pose proof Hw as [Htrace Htasks].
  destruct ev as [| m | | m c | c | i o | i o | o]; unfold step.
  - destruct (initNativeHostListener_is_expected now (module_state w))
      as (t & st' & e & Hrun & Hq & Ht).
    rewrite Hrun. apply consistent_world_after; [exact Hw | |].
    + apply quiet_is_persisted, Hq.
    + apply Forall_app. split.
      * apply expected_tasks_later, Htasks.
      * apply expected_park, Ht.
  - destruct (onMessage_is_expected m now (module_state w))
      as (t & st' & e & Hrun & Hq & Ht).
    rewrite Hrun. apply consistent_world_after; [exact Hw | |].
    + apply quiet_is_persisted, Hq.
    + apply Forall_app. split.
      * apply expected_tasks_later, Htasks.
      * apply expected_park, Ht.
  - apply consistent_world_after; [exact Hw | reflexivity |].
    apply expected_tasks_later, Htasks.
  - destruct (onRuntimeMessage_is_expected m c now (module_state w))
      as (r & t & st' & e & Hrun & Hq & Ht).
    rewrite Hrun. apply consistent_world_after; [exact Hw | |].
    + apply quiet_is_persisted, Hq.
    + apply Forall_app. split.
      * apply expected_tasks_later, Htasks.
      * apply expected_park, Ht.
  - unfold onStartup, connectNativeHost, console, emit, read, set_nativePort, bind.
    destruct (nativePort (module_state w)); [| destruct c];
      (apply consistent_world_after;
       [exact Hw | reflexivity | apply expected_tasks_later, Htasks]).
  - destruct (nth_error (suspended w) i) as [t |] eqn:Hi; [| exact Hw].
    assert (Ht : expected_task (phase_after NotAttempted (trace w)) t).
    { eapply Forall_forall; [exact Htasks | eapply nth_error_In, Hi]. }
    destruct Ht as [| k Hk | k Hph Hk | k Hk]; cbn [resume].
    + apply consistent_world_after; [exact Hw | reflexivity |].
      apply Forall_replaced; [apply expected_tasks_later, Htasks | constructor].
    + destruct (Hk o now (module_state w)) as (tr & Hrun & Hq). rewrite Hrun.
      apply consistent_world_after; [exact Hw | apply quiet_is_persisted, Hq |].
      apply Forall_replaced; [apply expected_tasks_later, Htasks | constructor].
    + destruct (Hk o now (module_state w)) as (text & Hrun). rewrite Hrun.
      apply consistent_world_after;
        [exact Hw | apply write_resumption_is_persisted, Hph |].
      apply Forall_replaced; [apply expected_tasks_later, Htasks | constructor].
    + apply consistent_world_after; [exact Hw | reflexivity |].
      apply Forall_replaced; [apply expected_tasks_later, Htasks |].
      apply expected_park. constructor. exact Hk.
  - destruct (nth_error (suspended w) i) as [t |] eqn:Hi; [| exact Hw].
    assert (Ht : expected_task (phase_after NotAttempted (trace w)) t).
    { eapply Forall_forall; [exact Htasks | eapply nth_error_In, Hi]. }
    destruct Ht as [| k Hk | k Hph Hk | k Hk]; cbn [resume_get].
    + apply consistent_world_after; [exact Hw | reflexivity |].
      apply Forall_replaced; [apply expected_tasks_later, Htasks | constructor].
    + apply consistent_world_after; [exact Hw | reflexivity |].
      apply Forall_replaced; [apply expected_tasks_later, Htasks |].
      apply expected_park. constructor. exact Hk.
    + apply consistent_world_after; [exact Hw | reflexivity |].
      apply Forall_replaced; [apply expected_tasks_later, Htasks |].
      apply expected_park. constructor; assumption.
    + destruct (Hk o now (module_state w)) as (st' & tr & Hrun & Hq & _).
      rewrite Hrun.
      apply consistent_world_after; [exact Hw | apply quiet_is_persisted, Hq |].
      apply Forall_replaced; [apply expected_tasks_later, Htasks | constructor].
  - destruct o; cbn;
      (apply consistent_world_after;
       [exact Hw | reflexivity | apply expected_tasks_later, Htasks]).
Qed.

Lemma steps_are_consistent (schedule : list (Z * Event)) (w : World) :
  consistent w -> consistent (steps schedule w).
Proof.
  revert w. induction schedule as [| [now ev] rest IH]; intros w Hw; simpl.
  - exact Hw.
  - apply IH, step_is_consistent, Hw.
Qed.

(** Whatever the worker receives after it is loaded, in whatever order, and
    however the promises it waits for settle: no broadcast of a status change
    is ever made before a write of the status to storage has been issued
    and has ended, with success or with a recorded failure. *)
Lemma broadcasts_always_follow_persistence (now : Z) (schedule : list (Z * Event)) :
  persisted_before_broadcast NotAttempted (trace (steps schedule (loaded now))) = true.
Proof.
  apply (steps_are_consistent schedule (loaded now)).
  split; [reflexivity | constructor].
Qed.

(** ** The port is dropped only on a disconnection *)

Lemma onMessage_keeps_port (m : Message) (now : Z) (st : State) :
  nativePort (state_of (onMessage m now st)) = nativePort st.
Proof.
  destruct (type m) as [[] | b | v] eqn:Hty; run_listener; rewrite Hty; cbn;
    try reflexivity;
    destruct (truthy (requestId m)); cbn; try reflexivity;
    destruct (nativePort st) eqn:Hp; cbn; rewrite ?Hp; reflexivity.
Qed.

Lemma onRuntimeMessage_keeps_port (m : RuntimeMessage) (c : completion Port)
    (now : Z) (st : State) (p : Port) :
  nativePort st = Some p ->
  is_native (runtime_type m) DISCONNECT_NATIVE = false ->
  nativePort (state_of (onRuntimeMessage m c now st)) = Some p.
Proof.
  intros Hport Hkeep.
  unfold onRuntimeMessage, connectNativeHost, loadServerStatus, console, emit,
    read, Date_now, set_nativePort, set_currentServerStatus, bind, ret, state_of.
  destruct m as [[[] | [] | v] | [[] | [] | v] q]; cbn in *;
    try discriminate; rewrite ?Hport; cbn; rewrite ?Hport; reflexivity.
Qed.

Lemma step_keeps_port (now : Z) (ev : Event) (w : World) (p : Port) :
  consistent w ->
  drops_port ev = false ->
  nativePort (module_state w) = Some p ->
  nativePort (module_state (step now ev w)) = Some p.
Proof.
  intros [_ Htasks] Hkeep Hport.
  destruct ev as [| m | | m c | c | i o | i o | o]; unfold step;
    try discriminate.
  - unfold initNativeHostListener, loadServerStatus, console, emit, bind, ret.
    cbn. exact Hport.
  - pose proof (onMessage_keeps_port m now (module_state w)) as H.
    unfold state_of in H.
    destruct (onMessage m now (module_state w)) as [[t st'] e]. cbn in *.
    congruence.
  - pose proof (onRuntimeMessage_keeps_port m c now (module_state w) p Hport Hkeep)
      as H.
    unfold state_of in H.
    destruct (onRuntimeMessage m c now (module_state w)) as [[[r t] st'] e].
    cbn in *. exact H.
  - unfold onStartup, connectNativeHost, console, emit, read, bind.
    rewrite Hport. cbn. exact Hport.
  - destruct (nth_error (suspended w) i) as [t |] eqn:Hi; [| exact Hport].
    assert (Ht : expected_task (phase_after NotAttempted (trace w)) t).
    { eapply Forall_forall; [exact Htasks | eapply nth_error_In, Hi]. }
    destruct Ht as [| k Hk | k Hph Hk | k Hk]; cbn [resume]; try exact Hport.
    + destruct (Hk o now (module_state w)) as (tr & Hrun & _). rewrite Hrun.
      exact Hport.
    + destruct (Hk o now (module_state w)) as (text & Hrun). rewrite Hrun.
      exact Hport.
  - destruct (nth_error (suspended w) i) as [t |] eqn:Hi; [| exact Hport].
    assert (Ht : expected_task (phase_after NotAttempted (trace w)) t).
    { eapply Forall_forall; [exact Htasks | eapply nth_error_In, Hi]. }
    destruct Ht as [| k Hk | k Hph Hk | k Hk]; cbn [resume_get]; try exact Hport.
    destruct (Hk o now (module_state w)) as (st' & tr & Hrun & _ & Hsame).
    rewrite Hrun. cbn. congruence.
  - destruct o; cbn; exact Hport.
Qed.

(** Once the module holds a port it holds it until the port reports
    disconnection or a runtime message asks to disconnect, whatever else
    happens. *)
Lemma port_is_held_until_dropped (schedule : list (Z * Event)) (w : World) (p : Port) :
  consistent w ->
  forallb (fun e => negb (drops_port (snd e))) schedule = true ->
  nativePort (module_state w) = Some p ->
  consistent (steps schedule w) /\
  nativePort (module_state (steps schedule w)) = Some p.
Proof.
  revert w. induction schedule as [| [now ev] rest IH]; intros w Hw Hkeep Hport.
  - split; assumption.
  - simpl in Hkeep. apply andb_true_iff in Hkeep. destruct Hkeep as [Hev Hrest].
    apply negb_true_iff in Hev. simpl.
    apply IH; [apply step_is_consistent, Hw | exact Hrest |].
    apply step_keeps_port; assumption.
Qed.

(** So a process-data frame with a request id that arrives on the port,
    at any time before the port is dropped, is answered on it, once. *)
Lemma process_data_is_echoed_until_dropped
    (schedule : list (Z * Event)) (w : World) (p : Port)
    (message : Message) (now : Z) :
  consistent w ->
  nativePort (module_state w) = Some p ->
  forallb (fun e => negb (drops_port (snd e))) schedule = true ->
  type message = TNative PROCESS_DATA ->
  truthy (requestId message) = true ->
  let before := steps schedule w in
  let after := step now (PortMessage message) before in
  exists reply,
    posted (trace after)
    = (posted (trace before) ++ [(p, Response (requestId message) reply)])%list /\
    get_opt reply "status" = VStr "success" /\
    get_opt reply "data" = payload message.
Proof.
  intros Hw Hport Hkeep Hty Hid. cbv zeta.
  destruct (port_is_held_until_dropped schedule w p Hw Hkeep Hport) as [_ Hheld].
  unfold step.
  rewrite (onMessage_process_data message now _ p Hty Hid Hheld).
  unfold world_after. cbn [trace fst snd].
  eexists. split.
  - rewrite posted_app. reflexivity.
  - split; reflexivity.
Qed.

End InvariantFacts.

(** ** A tool call that fails after the port is gone *)

(** C2 fails as stated: at the end of that schedule the listener has
    finished, and the only frame ever posted is the start frame; no frame
    answers [req-1]. *)
Lemma tool_failure_unanswered_after_disconnect :
  let w := steps (K := sample_constants) disconnect_during_tool_call (loaded 0) in
  suspended w = [] /\
  ~ (exists p reply,
        In (p, Response (requestId tool_call_frame) reply) (posted (trace w))).
Proof.
  cbv zeta. split; [vm_compute; reflexivity|].
  intros (p & reply & Hin).
  vm_compute in Hin.
  destruct Hin as [Hin | []]. discriminate Hin.
Qed.

(** ** A process-data frame whose request id is 0 *)

(** C6 fails as stated: the frame [process_data_frame_0] carries the request
    id 0 and arrives while the module holds port 7.  The listener's test
    [message.requestId] is false of 0, so the frame falls through to the
    branch for unknown types: the listener finishes and has posted no
    frame at all, so none that answers the request. *)
Lemma process_data_with_request_id_0_is_not_answered :
  let r := onMessage (K := sample_constants) process_data_frame_0 5
             (connected_to 7%nat 0) in
  type process_data_frame_0 = TNative PROCESS_DATA /\
  requestId process_data_frame_0 = VNum 0 /\
  nativePort (connected_to 7%nat 0) = Some 7%nat /\
  result_of r = Finished /\
  posted (trace_of r) = [] /\
  ~ (exists p reply,
        In (p, Response (requestId process_data_frame_0) reply)
           (posted (trace_of r))).
Proof.
  cbv zeta. split; [reflexivity|]. split; [reflexivity|]. split; [reflexivity|].
  split; [vm_compute; reflexivity|]. split; [vm_compute; reflexivity|].
  intros (p & reply & Hin). vm_compute in Hin. exact Hin.
Qed.

(* ===================================================================== *)
(** * Properties of the tool handlers *)
(* ===================================================================== *)

Section ToolBridgeFacts.
Import RegisterTools.

Lemma JSON_stringify_is_text (v : value) :
  v <> VUndefined -> exists s, JSON_stringify v = VStr s.
Proof.
  destruct v as [ | | [|] | n | s | items | fields | m]; intros H;
    try congruence; eexists; reflexivity.
Qed.

(** Whatever the request settles with, other than a rejection with [null] or
    [undefined], the handler returns a result and [isError] tells a
    rejection from a resolution. *)
Lemma handleToolCall_returns (name : string) (args : value) (o : settled) :
  match o with Rejected e => nullish e = false | Resolved _ => True end ->
  exists r,
    RegisterTools.run (handleToolCall name args) [o] = Some (Returned r) /\
    isError r = match o with Resolved _ => false | Rejected _ => true end /\
    well_formed r = true /\
    (o <> Resolved VUndefined -> forallb text_is_string (content r) = true).
Proof.
  destruct o as [v | e]; intros H; simpl.
  - eexists. repeat split. intros Hv. unfold text_is_string. simpl.
    destruct (JSON_stringify_is_text v) as [s Hs]; [congruence|].
    rewrite Hs. reflexivity.
  - unfold get. rewrite H. eexists. repeat split.
Qed.

(** The catch block reads [error.message]: a rejection with [null] or
    [undefined], which the correlator never produces, would make it throw. *)
Lemma handleToolCall_nullish_rejection (name : string) (args : value) (e : value) :
  nullish e = true ->
  exists t, RegisterTools.run (handleToolCall name args) [Rejected e] = Some (Thrown t).
Proof.
  intros H. simpl. unfold get. rewrite H. eexists. reflexivity.
Qed.

(** C1. For every call of [callTool] and every way the exchange ends
    (success reply, error reply, timeout, disconnect), the handler returns a
    result, it does not throw; the result is well formed, and [isError] is
    false exactly when the exchange succeeded.  The text of the result is a
    string, unless the reply that succeeded came without a payload. *)
Theorem callTool_always_returns_a_result
    (name : string) (arguments : value) (x : Exchange)
    (timeout_text closed_text : string) :
  exists r,
    RegisterTools.run (callTool name arguments)
      [correlate timeout_text closed_text x] = Some (Returned r) /\
    well_formed r = true /\
    (isError r = false <-> succeeded x = true) /\
    (x <> SuccessReply VUndefined -> forallb text_is_string (content r) = true).
Proof.
  unfold callTool.
  destruct (handleToolCall_returns name (or_else arguments (VObj []))
              (correlate timeout_text closed_text x))
    as (r & Hrun & Herr & Hwf & Htext).
  { destruct x; simpl; auto. }
  exists r. split; [exact Hrun|]. split; [exact Hwf|]. split.
  - rewrite Herr. destruct x; simpl; split; congruence.
  - intros Hx. apply Htext. destruct x; simpl; congruence.
Qed.

(** C5. [listTools] issues a [LIST_TOOLS] request with an empty payload and
    a timeout of 30000 ms, and when the request resolves with a reply it
    returns the reply's [data] as the tools; [callTool] issues a [CALL_TOOL]
    request whose payload is [{name, args}] with a timeout of 30000 ms. *)
Theorem bridge_requests (reply : value) (name : string) (args : value) :
  nullish reply = false ->
  issued listTools
    = Some {| messagePayload := VObj [];
              messageType := LIST_TOOLS;
              timeoutMs := 30000 |} /\
  RegisterTools.run listTools [Resolved reply]
    = Some (Returned {| tools := get_opt reply "data" |}) /\
  issued (handleToolCall name args)
    = Some {| messagePayload := VObj [("name", VStr name); ("args", args)];
              messageType := CALL_TOOL;
              timeoutMs := 30000 |} /\
  issued (callTool name args)
    = Some {| messagePayload :=
                VObj [("name", VStr name); ("args", or_else args (VObj []))];
              messageType := CALL_TOOL;
              timeoutMs := 30000 |}.
Proof.
  intros Hreply. repeat split.
  simpl. unfold get. rewrite Hreply. reflexivity.
Qed.

(** When the request fails, [listTools] fails with the same error. *)
Lemma listTools_surfaces_failure (e : value) :
  RegisterTools.run listTools [Rejected e] = Some (Thrown e).
Proof. reflexivity. Qed.

End ToolBridgeFacts.

(* ===================================================================== *)
(** * Properties of the process handlers *)
(* ===================================================================== *)

Section ProcessFacts.
Import Bootstrap.
Variable env : Environment.

Lemma log_spec (message : string) (p : Process) :
  log env message p
  = {| appends := (appends p ++ [(log_line env message p, append_succeeds env p)])%list;
       exited := exited p |}.
Proof.
  unfold log, log_line, append_succeeds.
  destruct (appendFileSync_at env (List.length (appends p))); reflexivity.
Qed.

Lemma log_file_app (p : Process) (line : string) (ok : bool) (x : option Z) :
  log_file {| appends := (appends p ++ [(line, ok)])%list; exited := x |}
  = (log_file p ++ (if ok then [line] else []))%list.
Proof.
  unfold log_file. simpl. rewrite filter_app, map_app. simpl.
  destruct ok; reflexivity.
Qed.

Lemma message_text_spec (error : Raised) :
  message_text error
  = if unreadable error
    then Thrown (VError ("Cannot read properties of " ++
                         (match error with
                          | RaisedValue VNull => "null"
                          | _ => "undefined"
                          end)))
    else Returned (message_of_raised error).
Proof. destruct error as [e | v]; [reflexivity | destruct v; reflexivity]. Qed.

(** An uncaught exception whose message can be read (anything but [null]
    and [undefined]) is handed to [log] first, and then the process exits
    with code 1, which is not 0.  An unhandled rejection is handed to [log]
    and the process goes on as it was, not exited.  [log] itself never fails
    and never ends the process: when the append fails the log file is left
    as it was, and when it succeeds the line is added at its end. *)
Lemma readable_failures_are_logged
    (error : Raised) (reason : value) (message : string) (p : Process) :
  unreadable error = false ->
  let p1 := handle env (UncaughtException error) p in
  let p2 := on_unhandledRejection env reason p in
  let p3 := log env message p in
  on_uncaughtException env error p = Returned p1 /\
  (exists line rest,
      log_attempts p1 = (log_attempts p ++ line :: rest)%list /\
      line = log_line env ("Uncaught exception: " ++ message_of_raised error ++ newline
                       ++ "Stack: " ++ stack_text error) p) /\
  exited p1 = Some 1 /\ 1 <> 0 /\
  (exists line,
      log_attempts p2 = (log_attempts p ++ [line])%list /\
      exists text, line = log_line env ("Unhandled rejection: " ++ text) p) /\
  exited p2 = exited p /\
  exited p3 = exited p /\
  log_attempts p3 = (log_attempts p ++ [log_line env message p])%list /\
  log_file p3 = (log_file p ++ (if append_succeeds env p then [log_line env message p] else []))%list.
Proof.
  intros Hread. cbv zeta.
  unfold handle, on_uncaughtException, on_unhandledRejection.
  rewrite message_text_spec, Hread.
  unfold process_exit, on_exit, end_process.
  rewrite !log_spec. unfold log_attempts. cbn [appends exited].
  repeat split.
  - do 2 eexists. split; [| reflexivity].
    rewrite !map_app. cbn [map fst]. rewrite <- app_assoc. reflexivity.
  - discriminate.
  - eexists. split; [rewrite map_app; reflexivity|]. eexists. reflexivity.
  - rewrite map_app. reflexivity.
  - apply log_file_app.
Qed.

(** C8. The listener of uncaught exceptions at the thrown values [null] and
    [undefined]: reading [error.message] throws before [log] is called.  So
    after [throw null] nothing is handed to [log], the log file is as it
    was, and the process ends with the code 7 of a failed exception handler.
    The listener of unhandled rejections, which tests [instanceof Error]
    first, logs the same value as ['Unhandled rejection: null']. *)
Theorem uncaught_null_is_not_logged (p : Process) :
  (exists e, on_uncaughtException env (RaisedValue VNull) p = Thrown e) /\
  (exists e, on_uncaughtException env (RaisedValue VUndefined) p = Thrown e) /\
  (let p' := handle env (UncaughtException (RaisedValue VNull)) p in
   log_attempts p' = log_attempts p /\
   log_file p' = log_file p /\
   exited p' = Some 7) /\
  log_attempts (on_unhandledRejection env VNull p)
  = (log_attempts p ++ [log_line env "Unhandled rejection: null" p])%list.
Proof.
  split; [eexists; reflexivity|].
  split; [eexists; reflexivity|].
  split.
  - cbv zeta. split; [reflexivity|]. split; reflexivity.
  - unfold on_unhandledRejection. rewrite log_spec. unfold log_attempts.
    cbn [appends]. rewrite map_app. reflexivity.
Qed.

(** On an interrupt or a termination signal the process hands a line to
    [log] and exits with code 0. *)
Lemma signals_exit_cleanly (p : Process) :
  exited (on_SIGINT env p) = Some 0 /\
  exited (on_SIGTERM env p) = Some 0 /\
  log_attempts (on_SIGINT env p)
  = (log_attempts p
     ++ [log_line env "Received SIGINT, shutting down gracefully" p;
         log_line env "Process exiting with code: 0"
           (log env "Received SIGINT, shutting down gracefully" p)])%list.
Proof.
  unfold on_SIGINT, on_SIGTERM, process_exit, on_exit, end_process, log_attempts.
  rewrite !log_spec. cbn [appends exited].
  repeat split. rewrite !map_app, <- app_assoc. reflexivity.
Qed.

(** A failure while starting is logged and ends the process with code 1;
    otherwise the process is left running. *)
Lemma main_exits_only_on_failure (startup : completion unit) :
  exited (main env startup started)
  = match startup with Returned _ => None | Thrown _ => Some 1 end.
Proof.
  unfold main, end_process. destruct startup; rewrite !log_spec; reflexivity.
Qed.

End ProcessFacts.

(* ===================================================================== *)
(** * Runs on concrete inputs *)
(* ===================================================================== *)

Example truthy_request_ids :
  map truthy [VStr "req-1"; VNum 17; VUndefined; VNull; VStr ""; VNum 0]
  = [true; true; false; false; false; false].
Proof. reflexivity. Qed.

Example String_of_values :
  map String_ [VUndefined; VNum 9222; VNum (-3); VArr [VNum 1; VNull; VStr "a"];
               VObj [("port", VNum 1)]; VError "boom"]
  = ["undefined"; "9222"; "-3"; "1,,a"; "[object Object]"; "Error: boom"].
Proof. reflexivity. Qed.

Example JSON_stringify_of_values :
  map RegisterTools.JSON_stringify
    [VArr [VNum 1; VUndefined; VBool true; VNull]; VNum (-42); VUndefined;
     VObj [("skipped", VUndefined)]; VError "boom"]
  = [VStr "[1,null,true,null]"; VStr "-42"; VUndefined; VStr "{}"; VStr "{}"].
Proof. reflexivity. Qed.

Example JSON_stringify_quotes_keys_and_strings :
  RegisterTools.JSON_stringify (VObj [("a", VStr "x"); ("b", VNum 2)])
  = VStr ("{" ++ RegisterTools.quote "a" ++ ":" ++ RegisterTools.quote "x"
          ++ "," ++ RegisterTools.quote "b" ++ ":2}").
Proof. reflexivity. Qed.

(** After a server-started frame with port 9222 a status query is answered
    with a running server on port 9222. *)
Example status_after_server_started :
  let w0 := {| module_state := initial_state 0;
               suspended := []; trace := [] |} in
  let w := steps (K := sample_constants)
             [(1, PortMessage server_started_frame);
              (2, Settles 0 (Resolved VUndefined));
              (3, RuntimeMessageReceived status_query (Returned 7%nat))] w0 in
  responses (trace w)
  = [StatusResponse true None
       {| isRunning := true; port := VNum 9222; lastUpdated := 1 |} false].
Proof. reflexivity. Qed.

(** When the server-stopped frame arrives while the write made for the
    server-started frame is still pending, the port is retained all the same;
    the listener of the first frame, resumed later, broadcasts the status
    that is current by then, the stopped one. *)
Example notifications_that_overlap :
  let w0 := {| module_state := connected_to 7%nat 0; suspended := []; trace := [] |} in
  let w := steps (K := sample_constants)
             [(1, PortMessage server_started_frame);
              (2, PortMessage server_stopped_frame);
              (3, Settles 0 (Resolved VUndefined));
              (4, Settles 0 (Resolved VUndefined))] w0 in
  let stopped := {| isRunning := false; port := VNum 9222; lastUpdated := 2 |} in
  currentServerStatus (module_state w) = stopped /\
  suspended w = [] /\
  broadcasts (trace w) = [stopped; stopped] /\
  persisted_before_broadcast (K := sample_constants) NotAttempted (trace w) = true.
Proof. cbv zeta. repeat split. Qed.

(** The schedule in which the port is lost while the tool runs, step by
    step: the frames posted are the start frame and nothing else. *)
Example frames_posted_when_port_is_lost :
  posted (trace (steps (K := sample_constants) disconnect_during_tool_call (loaded 0)))
  = [(7%nat, Typed START (VObj [("port", VNum 12306)]))].
Proof. reflexivity. Qed.

(** The same tool failure with the port still held is answered. *)
Example frames_posted_when_port_is_held :
  posted (trace (steps (K := sample_constants)
                   [(1, RuntimeMessageReceived (BareString (TNative CONNECT_NATIVE))
                          (Returned 7%nat));
                    (2, PortMessage tool_call_frame);
                    (4, Settles 0 (Rejected (VError "navigation failed")))]
                   (loaded 0)))
  = [(7%nat, Typed START (VObj [("port", VNum 12306)]));
     (7%nat, Response (VStr "req-1")
               (VObj [("status", VStr "error");
                      ("message", VStr "Tool execution failed");
                      ("error", VStr "navigation failed")]))].
Proof. reflexivity. Qed.

(* ===================================================================== *)
(** * The theorems at concrete inputs *)
(* ===================================================================== *)

Lemma process_data_is_echoed_at_req_7 :
  let K := sample_constants in
  type process_data_frame = TNative PROCESS_DATA /\
  truthy (requestId process_data_frame) = true /\
  let r := onMessage process_data_frame 5 (connected_to 7%nat 0) in
  result_of r = Finished /\
  state_of r = connected_to 7%nat 0 /\
  exists reply,
    posted (trace_of r) = [(7%nat, Response (requestId process_data_frame) reply)] /\
    get_opt reply "status" = VStr "success" /\
    get_opt reply "data" = payload process_data_frame.
Proof.
  intros K. split; [reflexivity|]. split; [reflexivity|].
  apply (process_data_is_echoed (K := K) process_data_frame 5 (connected_to 7%nat 0));
    reflexivity.
Defined.

Lemma unknown_type_is_only_logged_at_list_tools :
  let K := sample_constants in
  in_vocabulary (type list_tools_frame) = false /\
  let r := onMessage list_tools_frame 5 (connected_to 7%nat 0) in
  result_of r = Finished /\
  state_of r = connected_to 7%nat 0 /\
  posted (trace_of r) = [] /\
  trace_of r = only_logged_as_unknown.
Proof.
  intros K. split; [reflexivity|].
  apply (unknown_type_is_only_logged (K := K) list_tools_frame 5 (connected_to 7%nat 0));
    reflexivity.
Defined.

Lemma request_without_id_falls_through_at_tool_call :
  let K := sample_constants in
  (type tool_call_without_id = TNative CALL_TOOL
   \/ type tool_call_without_id = TNative PROCESS_DATA) /\
  truthy (requestId tool_call_without_id) = false /\
  let r := onMessage tool_call_without_id 5 (connected_to 7%nat 0) in
  result_of r = Finished /\
  state_of r = connected_to 7%nat 0 /\
  posted (trace_of r) = [] /\
  trace_of r = only_logged_as_unknown.
Proof.
  intros K. split; [left; reflexivity|]. split; [reflexivity|].
  apply (request_without_id_falls_through (K := K)
           tool_call_without_id 5 (connected_to 7%nat 0));
    [left; reflexivity | reflexivity].
Defined.

Lemma tool_failure_is_answered_at_req_1 :
  let K := sample_constants in
  type tool_call_frame = TNative CALL_TOOL /\
  truthy (requestId tool_call_frame) = true /\
  exists k,
    let r := onMessage tool_call_frame 2 (connected_to 7%nat 0) in
    result_of r = AwaitHandleCallTool k /\
    state_of r = connected_to 7%nat 0 /\
    posted (trace_of r) = [] /\
    In (HandleCallTool (payload tool_call_frame)) (trace_of r) /\
    let r' := k (Rejected (VError "navigation failed")) 4 (connected_to 7%nat 0) in
    result_of r' = Finished /\
    state_of r' = connected_to 7%nat 0 /\
    get_opt (errorResponse_payload (VError "navigation failed")) "status"
      = VStr "error" /\
    posted (trace_of r') =
      match nativePort (connected_to 7%nat 0) with
      | Some p =>
          [(p, Response (requestId tool_call_frame)
                 (errorResponse_payload (VError "navigation failed")))]
      | None => []
      end.
Proof.
  intros K. split; [reflexivity|]. split; [reflexivity|].
  apply (tool_failure_is_answered_if_connected (K := K)
           tool_call_frame 2 (connected_to 7%nat 0)
           (VError "navigation failed") 4 (connected_to 7%nat 0));
    reflexivity.
Defined.

Lemma port_is_retained_after_stop_at_9222 :
  let K := sample_constants in
  type server_started_frame = TNative SERVER_STARTED /\
  get_opt (payload server_started_frame) "port" = VNum 9222 /\
  type server_stopped_frame = TNative SERVER_STOPPED /\
  let w0 := {| module_state := connected_to 7%nat 0; suspended := []; trace := [] |} in
  let w := steps [(1, PortMessage server_started_frame);
                  (2, Settles 0 (Resolved VUndefined));
                  (3, PortMessage server_stopped_frame);
                  (4, Settles 0 (Rejected (VError "quota exceeded")))] w0 in
  let w' := step 5 (RuntimeMessageReceived status_query (Returned 8%nat)) w in
  let final := {| isRunning := false; port := VNum 9222; lastUpdated := 3 |} in
  currentServerStatus (module_state w) = final /\
  nativePort (module_state w) = nativePort (connected_to 7%nat 0) /\
  suspended w = [] /\
  module_state w' = module_state w /\
  responses (trace w') =
    [StatusResponse true None final (is_connected (connected_to 7%nat 0))].
Proof.
  intros K. split; [reflexivity|]. split; [reflexivity|]. split; [reflexivity|].
  apply (port_is_retained_after_stop (K := K) (VNum 9222)
           server_started_frame server_stopped_frame (connected_to 7%nat 0)
           1 2 3 4 5 (Resolved VUndefined) (Rejected (VError "quota exceeded"))
           (Returned 8%nat));
    reflexivity.
Defined.

Lemma status_is_persisted_before_broadcast_at_9222 :
  let K := sample_constants in
  (type server_started_frame = TNative SERVER_STARTED
   \/ type server_started_frame = TNative SERVER_STOPPED) /\
  exists k,
    let r := onMessage server_started_frame 1 (connected_to 7%nat 0) in
    result_of r = AwaitStorageSet k /\
    In (StorageSet STORAGE_KEYS_SERVER_STATUS (currentServerStatus (state_of r)))
       (trace_of r) /\
    broadcasts (trace_of r) = [] /\
    let r' := k (Rejected (VError "quota exceeded")) 2 (state_of r) in
    result_of r' = Finished /\
    (exists rest,
        trace_of r' = save_record (Rejected (VError "quota exceeded")) :: rest) /\
    broadcasts (trace_of r') = [currentServerStatus (state_of r)] /\
    persisted_before_broadcast NotAttempted (trace_of r ++ trace_of r') = true.
Proof.
  intros K. split; [left; reflexivity|].
  apply (status_is_persisted_before_broadcast (K := K)
           server_started_frame 1 (connected_to 7%nat 0)
           (Rejected (VError "quota exceeded")) 2
           (state_of (onMessage server_started_frame 1 (connected_to 7%nat 0))));
    left; reflexivity.
Defined.

Lemma connect_is_idempotent_while_connected_at_7 :
  let K := sample_constants in
  let r := connectNativeHost VUndefined (Returned 7%nat) 1 (initial_state 0) in
  let r' := connectNativeHost (VNum 4000) (Returned 8%nat) 2 (state_of r) in
  nativePort (state_of r) <> None /\
  state_of r' = state_of r /\
  channels_opened (trace_of r') = 0%nat /\
  posted (trace_of r') = [].
Proof.
  intros K. cbv zeta. split; [discriminate|].
  apply (proj2 (connect_is_idempotent_while_connected (K := K)
                  VUndefined (Returned 7%nat) 1 (initial_state 0)
                  (VNum 4000) (Returned 8%nat) 2)).
  discriminate.
Defined.

Lemma bridge_requests_at_navigate :
  let reply := VObj [("status", VStr "success");
                     ("data", VArr [VObj [("name", VStr "chrome_navigate")]])] in
  nullish reply = false /\
  RegisterTools.issued RegisterTools.listTools
    = Some {| RegisterTools.messagePayload := VObj [];
              RegisterTools.messageType := LIST_TOOLS;
              RegisterTools.timeoutMs := 30000 |} /\
  RegisterTools.run RegisterTools.listTools [Resolved reply]
    = Some (Returned {| RegisterTools.tools := get_opt reply "data" |}) /\
  RegisterTools.issued (RegisterTools.handleToolCall "chrome_navigate" (VObj []))
    = Some {| RegisterTools.messagePayload :=
                VObj [("name", VStr "chrome_navigate"); ("args", VObj [])];
              RegisterTools.messageType := CALL_TOOL;
              RegisterTools.timeoutMs := 30000 |} /\
  RegisterTools.issued (RegisterTools.callTool "chrome_navigate" (VObj []))
    = Some {| RegisterTools.messagePayload :=
                VObj [("name", VStr "chrome_navigate");
                      ("args", or_else (VObj []) (VObj []))];
              RegisterTools.messageType := CALL_TOOL;
              RegisterTools.timeoutMs := 30000 |}.
Proof.
  intros reply. split; [reflexivity|].
  apply (bridge_requests reply "chrome_navigate" (VObj [])). reflexivity.
Defined.

Lemma callTool_always_returns_a_result_at_timeout :
  RegisterTools.Timeout <> RegisterTools.SuccessReply VUndefined /\
  exists r,
    RegisterTools.run (RegisterTools.callTool "chrome_navigate" VUndefined)
      [RegisterTools.correlate "Request timed out" "Channel closed"
         RegisterTools.Timeout] = Some (Returned r) /\
    RegisterTools.isError r = true /\
    forallb RegisterTools.text_is_string (RegisterTools.content r) = true.
Proof.
  split; [discriminate|].
  destruct (callTool_always_returns_a_result "chrome_navigate" VUndefined
              RegisterTools.Timeout "Request timed out" "Channel closed")
    as (r & Hrun & _ & Herr & Htext).
  exists r. split; [exact Hrun|]. split.
  - destruct (RegisterTools.isError r); [reflexivity|].
    destruct Herr as [Herr _]. discriminate (Herr eq_refl).
  - apply Htext. discriminate.
Defined.

(* ===================================================================== *)
(** * Further properties of the listeners *)
(* ===================================================================== *)

(** Unfolds the runtime listener and what it calls. *)
Ltac run_runtime_listener :=
  unfold onRuntimeMessage, onStartup, initNativeHostListener, connectNativeHost,
    loadServerStatus, onDisconnect, console, emit, read, Date_now,
    set_nativePort, set_currentServerStatus, bind, ret,
    result_of, state_of, trace_of.

Section FurtherListenerFacts.
Context {K : Constants}.

Lemma is_native_exactly (ty : MessageType) (c : NativeMessageType) :
  is_native ty c = true -> ty = TNative c.
Proof.
  destruct ty as [t | t | v]; simpl; try discriminate.
  destruct (NativeMessageType_eq_dec t c); [congruence | discriminate].
Qed.

Lemma is_background_exactly (ty : MessageType) (c : BackgroundMessageType) :
  is_background ty c = true -> ty = TBackground c.
Proof.
  destruct ty as [t | t | v]; simpl; try discriminate.
  destruct (BackgroundMessageType_eq_dec t c); [congruence | discriminate].
Qed.

(** X1. For a tool-call frame with a request id the listener is suspended on
    the tool call.  When the call succeeds with [result], the listener
    finishes and leaves the state as it finds it; if the module still holds
    a port it posts on it exactly one frame, with the frame's request id,
    status ['success'] and [result] under [data]; if the port has been
    dropped meanwhile it posts nothing. *)
Theorem tool_success_is_answered_if_connected
    (message : Message) (now : Z) (st : State)
    (result : value) (now' : Z) (st' : State) :
  type message = TNative CALL_TOOL ->
  truthy (requestId message) = true ->
  exists k,
    result_of (onMessage message now st) = AwaitHandleCallTool k /\
    let r' := k (Resolved result) now' st' in
    result_of r' = Finished /\
    state_of r' = st' /\
    posted (trace_of r') =
      match nativePort st' with
      | Some p =>
          [(p, Response (requestId message)
                 (VObj [("status", VStr "success");
                        ("message", VStr SUCCESS_MESSAGES_TOOL_EXECUTED);
                        ("data", result)]))]
      | None => []
      end.
Proof.
  intros Hty Hid. run_listener. rewrite Hty, Hid. cbn.
  eexists. split; [reflexivity|].
  repeat split; destruct (nativePort st'); reflexivity.
Qed.

(** X2. A frame of type error-from-native-host is only written to the
    console, at error level: no frame is posted, even when the frame carries
    a request id, and the state is unchanged. *)
Theorem error_from_native_host_is_only_logged
    (message : Message) (now : Z) (st : State) :
  type message = TNative ERROR_FROM_NATIVE_HOST ->
  onMessage message now st
  = (Finished, st,
     [Console Log "[native] Received message from native host:";
      Console Error "[native] Error from native host:"]).
Proof.
  intros Hty. run_listener. rewrite Hty. reflexivity.
Qed.

Lemma connect_request_shape (m : RuntimeMessage) :
  is_connect_request m = true ->
  m = BareString (TNative CONNECT_NATIVE)
  \/ exists p, m = ObjectMessage (TNative CONNECT_NATIVE) p.
Proof.
  unfold is_connect_request. intros H. apply orb_true_iff in H.
  destruct m as [s | ty p]; simpl in H; destruct H as [H | H];
    try discriminate.
  - left. f_equal. apply is_native_exactly, H.
  - right. exists p. f_equal. apply is_native_exactly, H.
Qed.

Lemma requested_port_is_defined (m : RuntimeMessage) :
  match requested_port m with
  | VUndefined => VNum NATIVE_HOST_DEFAULT_PORT
  | _ => requested_port m
  end = requested_port m.
Proof.
  destruct m as [s | ty p]; simpl; [reflexivity|].
  destruct p as [ | | [|] | n | s | l | l | e]; simpl; try reflexivity.
  destruct (n =? 0); reflexivity.
  destruct (s =? "")%string; reflexivity.
Qed.

(** The run of the runtime listener on a connect request. *)
Lemma connect_request_run (m : RuntimeMessage) (c : completion Port) (now : Z)
    (st : State) :
  is_connect_request m = true ->
  onRuntimeMessage m c now st
  = (true, Finished,
     state_of (connectNativeHost (requested_port m) c now st),
     [Console Log "[native] Received runtime message:";
      Console Log ("[native] Connect native request received for port: "
                   ++ String_ (requested_port m))]
     ++ trace_of (connectNativeHost (requested_port m) c now st)
     ++ [Console Log "[native] Sending connect response:";
         SendResponse (ConnectResponse true (requested_port m))])%list.
Proof.
  intros H.
  destruct (connect_request_shape m H) as [-> | [p ->]];
    unfold onRuntimeMessage, console, emit, bind, ret, state_of, trace_of;
    cbn -[connectNativeHost];
    match goal with
    | |- context [connectNativeHost ?v c now st] =>
        destruct (connectNativeHost v c now st) as [[u st1] e1]
    end; reflexivity.
Qed.

(** [connectNativeHost] called with the port of a connect request. *)
Lemma connectNativeHost_on_request (m : RuntimeMessage) (c : completion Port)
    (now : Z) (st : State) :
  connectNativeHost (requested_port m) c now st
  = match nativePort st with
    | Some _ =>
        (tt, st,
         [Console Log "[native] Native port already connected, skipping connection"])
    | None =>
        match c with
        | Returned q =>
            (tt,
             {| nativePort := Some q; currentServerStatus := currentServerStatus st |},
             [Console Log ("[native] Attempting to connect to native host: "
                           ++ HOST_NAME ++ " on port " ++ String_ (requested_port m));
              ConnectNative HOST_NAME;
              Console Log "[native] Native port connection established";
              AddMessageListener q;
              AddDisconnectListener q;
              Console Log "[native] Sending start message to native host:";
              PostMessage q (Typed START (VObj [("port", requested_port m)]))])
        | Thrown _ =>
            (tt, st,
             [Console Log ("[native] Attempting to connect to native host: "
                           ++ HOST_NAME ++ " on port " ++ String_ (requested_port m));
              ConnectNative HOST_NAME;
              Console Error ("[native] " ++ ERROR_MESSAGES_NATIVE_CONNECTION_FAILED)])
        end
    end.
Proof.
  unfold connectNativeHost. cbv zeta. rewrite requested_port_is_defined.
  unfold console, emit, read, set_nativePort, bind.
  destruct (nativePort st); [reflexivity|]. destruct c; reflexivity.
Qed.

(** X3. A connect request, the bare string or an object of that type, is
    always answered with [success: true] and the port asked for (the
    message's [port] when it is truthy, the default port otherwise), and the
    listener returns [true]: also when the module was already connected, and
    also when the channel could not be opened, in which case the module
    still holds no port.  A frame is posted only when a channel was opened:
    the start frame, carrying the same port as the answer. *)
Theorem connect_request_always_reports_success
    (m : RuntimeMessage) (c : completion Port) (now : Z) (st : State) :
  is_connect_request m = true ->
  let r := onRuntimeMessage m c now st in
  result_of r = (true, Finished) /\
  responses (trace_of r) = [ConnectResponse true (requested_port m)] /\
  currentServerStatus (state_of r) = currentServerStatus st /\
  nativePort (state_of r)
  = match nativePort st, c with
    | Some p, _ => Some p
    | None, Returned q => Some q
    | None, Thrown _ => None
    end /\
  posted (trace_of r)
  = match nativePort st, c with
    | None, Returned q => [(q, Typed START (VObj [("port", requested_port m)]))]
    | _, _ => []
    end.
Proof.
  intros H. cbv zeta. rewrite (connect_request_run m c now st H).
  rewrite connectNativeHost_on_request.
  unfold result_of, state_of, trace_of.
  destruct (nativePort st) as [p |] eqn:Hp; [| destruct c as [q | e]];
    cbn; rewrite ?Hp; repeat split.
Qed.

(** X4. A disconnect request received while the module holds a port
    disconnects that port, drops it, and is answered with [success: true];
    received while no port is held it disconnects nothing and is answered
    with [success: false] and the error ['No active connection'].  Either
    way the module holds no port afterwards, the server status is untouched,
    nothing is posted, and the listener returns [true]. *)
Theorem disconnect_request_drops_the_port
    (m : RuntimeMessage) (c : completion Port) (now : Z) (st : State) :
  is_native (runtime_type m) DISCONNECT_NATIVE = true ->
  let r := onRuntimeMessage m c now st in
  result_of r = (true, Finished) /\
  nativePort (state_of r) = None /\
  currentServerStatus (state_of r) = currentServerStatus st /\
  posted (trace_of r) = [] /\
  disconnected (trace_of r)
  = match nativePort st with Some p => [p] | None => [] end /\
  responses (trace_of r)
  = [match nativePort st with
     | Some _ => DisconnectResponse true None
     | None => DisconnectResponse false (Some "No active connection")
     end].
Proof.
  intros H. destruct m as [s | ty q]; [discriminate|].
  simpl in H. apply is_native_exactly in H. subst ty.
  run_runtime_listener. cbn.
  destruct (nativePort st) as [p |] eqn:Hp; cbn; rewrite ?Hp; repeat split.
Qed.

(** X5. A ping is answered with whether the module holds a port at that
    moment, and changes nothing: the state is as before, nothing is posted,
    no channel is opened.  So a ping right after the port has reported
    disconnection is answered [connected: false], and a ping right after a
    connect request that obtained a channel is answered [connected: true]. *)
Theorem ping_reports_whether_a_port_is_held
    (m ask : RuntimeMessage) (c : completion Port) (q : Port)
    (now now' : Z) (st : State) :
  is_native (runtime_type m) PING_NATIVE = true ->
  is_connect_request ask = true ->
  let ping st := onRuntimeMessage m c now' st in
  (result_of (ping st) = (true, Finished) /\
   state_of (ping st) = st /\
   posted (trace_of (ping st)) = [] /\
   channels_opened (trace_of (ping st)) = 0%nat /\
   responses (trace_of (ping st)) = [PingResponse (is_connected st)]) /\
  responses (trace_of (ping (state_of (onDisconnect now st))))
  = [PingResponse false] /\
  (nativePort st = None ->
   responses (trace_of (ping (state_of (onRuntimeMessage ask (Returned q) now st))))
   = [PingResponse true]).
Proof.
  intros H Hask. destruct m as [s | ty p]; [discriminate|].
  simpl in H. apply is_native_exactly in H. subst ty. cbv zeta.
  assert (Hping : forall s,
             onRuntimeMessage (ObjectMessage (TNative PING_NATIVE) p) c now' s
             = (true, Finished, s,
                [Console Log "[native] Received runtime message:";
                 Console Log ("[native] Ping native request received, connected: "
                              ++ String_ (VBool (is_connected s)));
                 Console Log "[native] Sending ping response:";
                 SendResponse (PingResponse (is_connected s))])).
  { intros s. run_runtime_listener. unfold is_connected. cbn.
    destruct (nativePort s); reflexivity. }
  rewrite !Hping. unfold result_of, state_of, trace_of. cbn [fst snd].
  split; [repeat split|]. split; [reflexivity|].
  intros Hnone.
  rewrite (connect_request_run ask (Returned q) now st Hask).
  rewrite connectNativeHost_on_request, Hnone. reflexivity.
Qed.

(** X6. A runtime message that no branch of the listener takes gets no
    answer: the listener returns without [true], the state is unchanged, and
    the run is two console lines.  This is so for every bare string other
    than the connect request, among them the bare strings of a ping and of a
    disconnect request. *)
Theorem unhandled_runtime_message_is_ignored
    (m : RuntimeMessage) (c : completion Port) (now : Z) (st : State) :
  is_handled m = false ->
  onRuntimeMessage m c now st
  = (false, Finished, st,
     [Console Log "[native] Received runtime message:";
      Console Log "[native] Unhandled runtime message type:"]).
Proof.
  unfold is_handled, is_connect_request. intros H.
  repeat (apply orb_false_iff in H; destruct H as [H ?]).
  unfold onRuntimeMessage, console, emit, bind, ret.
  repeat match goal with Hc : _ = false |- _ => rewrite Hc; clear Hc end.
  reflexivity.
Qed.

(** A bare string is taken only when it is the connect request. *)
Lemma bare_strings_are_unhandled (s : MessageType) :
  s <> TNative CONNECT_NATIVE -> is_handled (BareString s) = false.
Proof.
  intros Hs. unfold is_handled, is_connect_request. simpl.
  destruct (is_native s CONNECT_NATIVE) eqn:H; [| reflexivity].
  apply is_native_exactly in H. contradiction.
Qed.

End FurtherListenerFacts.

(* ===================================================================== *)
(** * Further properties of reads of storage *)
(* ===================================================================== *)

Section StorageFacts.
Context {K : Constants}.

(** X7. A refresh request issues one read of the status key and answers
    nothing yet.  When the read settles, the server status becomes what
    storage holds under the key, or the default (not running, no port, the
    time of that moment) when nothing is stored or the read failed; the
    native port is untouched; and exactly one answer is sent: always
    [success: true], with that status and whether a port is held then.  A
    failed read is thus answered like an empty store. *)
Theorem refresh_adopts_what_storage_holds
    (m : RuntimeMessage) (c : completion Port) (now : Z) (st : State)
    (o : get_outcome) (now' : Z) (st' : State) :
  is_background (runtime_type m) REFRESH_SERVER_STATUS = true ->
  exists k,
    let r := onRuntimeMessage m c now st in
    result_of r = (true, AwaitStorageGet k) /\
    state_of r = st /\
    In (StorageGet STORAGE_KEYS_SERVER_STATUS) (trace_of r) /\
    responses (trace_of r) = [] /\
    let r' := k o now' st' in
    result_of r' = Finished /\
    currentServerStatus (state_of r') = loaded_status o now' /\
    nativePort (state_of r') = nativePort st' /\
    responses (trace_of r')
    = [StatusResponse true None (loaded_status o now') (is_connected st')].
Proof.
  intros H. destruct m as [s | ty q]; [discriminate|].
  simpl in H. apply is_background_exactly in H. subst ty.
  run_runtime_listener. cbn.
  eexists. split; [reflexivity|]. split; [reflexivity|].
  split; [cbn; auto 6|]. split; [reflexivity|].
  destruct o as [[s |] | e]; cbn; repeat split.
Qed.

(** X8. [initNativeHostListener] issues one read of the status key and
    registers the startup listener and the runtime-message listener; it
    opens no channel, posts nothing and leaves the state as it is.  When the
    read settles, the server status becomes what storage holds, or the
    default when nothing is stored or the read failed, and the native port
    is untouched.  The startup listener then connects with the default port:
    it posts the start frame with that port when no port is held and a
    channel is obtained, and nothing otherwise. *)
Theorem initialisation_loads_the_status
    (now : Z) (st : State) (o : get_outcome) (now' : Z) (st' : State)
    (c : completion Port) :
  exists k,
    let r := initNativeHostListener now st in
    result_of r = AwaitStorageGet k /\
    state_of r = st /\
    In (StorageGet STORAGE_KEYS_SERVER_STATUS) (trace_of r) /\
    In AddStartupListener (trace_of r) /\
    In AddRuntimeMessageListener (trace_of r) /\
    channels_opened (trace_of r) = 0%nat /\
    posted (trace_of r) = [] /\
    (let r' := k o now' st' in
     result_of r' = Finished /\
     state_of r' = {| nativePort := nativePort st';
                      currentServerStatus := loaded_status o now' |} /\
     forallb is_console (trace_of r') = true) /\
    posted (trace_of (onStartup c now' st'))
    = match nativePort st', c with
      | None, Returned q =>
          [(q, Typed START (VObj [("port", VNum NATIVE_HOST_DEFAULT_PORT)]))]
      | _, _ => []
      end.
Proof.
  run_runtime_listener. cbn.
  eexists. split; [reflexivity|]. split; [reflexivity|].
  split; [cbn; auto 6|]. split; [cbn; auto 6|]. split; [cbn; auto 8|].
  split; [reflexivity|]. split; [reflexivity|]. split.
  - destruct o as [[s |] | e]; cbn; repeat split.
  - destruct (nativePort st'); [reflexivity|]. destruct c; reflexivity.
Qed.

End StorageFacts.

(* ===================================================================== *)
(** * Further properties of schedules *)
(* ===================================================================== *)

Section FurtherScheduleFacts.
Context {K : Constants}.

Lemma broadcasts_app (a b : list Effect) :
  broadcasts (a ++ b) = (broadcasts a ++ broadcasts b)%list.
Proof.
  induction a as [| e a IH]; [reflexivity|].
  destruct e as [ | | | | | | | | | [] s | | | ]; simpl; rewrite IH; reflexivity.
Qed.

Lemma channels_opened_app (a b : list Effect) :
  channels_opened (a ++ b) = (channels_opened a + channels_opened b)%nat.
Proof.
  induction a as [| e a IH]; [reflexivity|].
  destruct e; simpl; rewrite IH; reflexivity.
Qed.

(** X10. When the server-stopped frame arrives while the write made for the
    server-started frame is still pending, and the two writes then settle
    (either way), the module ends not running with the port of the
    server-started frame, and both listeners broadcast that stopped status:
    the running status is never broadcast. *)
Theorem overlapping_notifications_broadcast_the_last_status
    (p : value) (started stopped : Message) (st : State)
    (n1 n2 n3 n4 : Z) (o1 o2 : settled) :
  type started = TNative SERVER_STARTED ->
  get_opt (payload started) "port" = p ->
  type stopped = TNative SERVER_STOPPED ->
  let w0 := {| module_state := st; suspended := []; trace := [] |} in
  let w := steps [(n1, PortMessage started); (n2, PortMessage stopped);
                  (n3, Settles 0 o1); (n4, Settles 0 o2)] w0 in
  let last := {| isRunning := false; port := p; lastUpdated := n2 |} in
  currentServerStatus (module_state w) = last /\
  suspended w = [] /\
  broadcasts (trace w) = [last; last].
Proof.
  intros Hstarted Hp Hstopped. cbv zeta. cbn [steps].
  destruct (onMessage_started started n1 st Hstarted) as (k1 & t1 & Hrun1 & Hk1).
  rewrite Hp in Hrun1.
  match goal with
  | |- context [step n1 (PortMessage started) ?w] =>
      rewrite (step_PortMessage n1 started w _ _ _ Hrun1);
      unfold world_after;
      cbn [fst snd park app suspended trace module_state]
  end.
  match goal with
  | |- context [step n2 (PortMessage stopped) ?w] =>
      destruct (onMessage_stopped stopped n2 (module_state w) Hstopped)
        as (k2 & t2 & Hrun2 & Hk2);
      rewrite (step_PortMessage n2 stopped w _ _ _ Hrun2);
      unfold world_after;
      cbn [fst snd park app suspended trace module_state]
  end.
  match goal with
  | |- context [step n3 (Settles 0 o1) ?w] =>
      rewrite (step_Settles n3 0 o1 w _ _ _ _ eq_refl (Hk1 o1 n3 _));
      unfold world_after;
      cbn [fst snd park app firstn skipn suspended trace module_state]
  end.
  match goal with
  | |- context [step n4 (Settles 0 o2) ?w] =>
      rewrite (step_Settles n4 0 o2 w _ _ _ _ eq_refl (Hk2 o2 n4 _));
      unfold world_after;
      cbn [fst snd park app firstn skipn suspended trace module_state]
  end.
  repeat split.
  rewrite ?broadcasts_app. destruct o1, o2; reflexivity.
Qed.

Lemma onMessage_keeps_status (m : Message) (now : Z) (st : State) :
  is_native (type m) SERVER_STARTED || is_native (type m) SERVER_STOPPED = false ->
  state_of (onMessage m now st) = st.
Proof.
  intros H. apply orb_false_iff in H. destruct H as [H1 H2].
  run_listener. rewrite H1, H2.
  destruct (is_native (type m) PROCESS_DATA && truthy (requestId m)); cbn.
  - destruct (nativePort st); reflexivity.
  - destruct (is_native (type m) CALL_TOOL && truthy (requestId m)); cbn;
      [reflexivity|].
    destruct (is_native (type m) ERROR_FROM_NATIVE_HOST); reflexivity.
Qed.

Lemma onRuntimeMessage_keeps_status (m : RuntimeMessage) (c : completion Port)
    (now : Z) (st : State) :
  currentServerStatus (state_of (onRuntimeMessage m c now st))
  = currentServerStatus st.
Proof.
  run_runtime_listener.
  destruct m as [[[] | [] | v] | [[] | [] | v] p]; cbn;
    destruct (nativePort st); destruct c; reflexivity.
Qed.

Lemma step_keeps_status (now : Z) (ev : Event) (w : World) :
  consistent w ->
  may_change_status ev = false ->
  currentServerStatus (module_state (step now ev w))
  = currentServerStatus (module_state w).
Proof.
  intros [_ Htasks] Hev.
  destruct ev as [| m | | m c | c | i o | i o | o]; unfold step;
    try discriminate.
  - run_runtime_listener. reflexivity.
  - pose proof (onMessage_keeps_status m now (module_state w) Hev) as H.
    unfold state_of in H.
    destruct (onMessage m now (module_state w)) as [[t st'] e]. cbn in *.
    congruence.
  - reflexivity.
  - pose proof (onRuntimeMessage_keeps_status m c now (module_state w)) as H.
    unfold state_of in H.
    destruct (onRuntimeMessage m c now (module_state w)) as [[[r t] st'] e].
    exact H.
  - run_runtime_listener.
    destruct (nativePort (module_state w)); [| destruct c]; reflexivity.
  - destruct (nth_error (suspended w) i) as [t |] eqn:Hi; [| reflexivity].
    assert (Ht : expected_task (phase_after NotAttempted (trace w)) t).
    { eapply Forall_forall; [exact Htasks | eapply nth_error_In, Hi]. }
    destruct Ht as [| k Hk | k Hph Hk | k Hk]; cbn [resume]; try reflexivity.
    + destruct (Hk o now (module_state w)) as (tr & Hrun & _). rewrite Hrun.
      reflexivity.
    + destruct (Hk o now (module_state w)) as (text & Hrun). rewrite Hrun.
      reflexivity.
  - destruct o; reflexivity.
Qed.

(** X11. The server status changes only when a server-started or
    server-stopped frame is received or when a read of storage settles.
    Over any schedule without such events, from the loaded worker or from
    any consistent world, the status at the end is the status at the start:
    tool calls, echoes, error frames, unknown frames, connect, disconnect,
    ping and status requests, disconnections, and writes and tool calls that
    settle never change it. *)
Theorem status_changes_only_on_notifications_and_reads
    (schedule : list (Z * Event)) (w : World) :
  consistent w ->
  forallb (fun e => negb (may_change_status (snd e))) schedule = true ->
  currentServerStatus (module_state (steps schedule w))
  = currentServerStatus (module_state w).
Proof.
  revert w. induction schedule as [| [now ev] rest IH]; intros w Hw Hs.
  - reflexivity.
  - simpl in Hs. apply andb_true_iff in Hs. destruct Hs as [Hev Hrest].
    apply negb_true_iff in Hev. simpl.
    rewrite IH; [| apply step_is_consistent, Hw | exact Hrest].
    apply step_keeps_status; assumption.
Qed.

(** ** What is posted, and when channels are opened *)

Lemma solicited_more (ids ids' : list value) (f : Port * Posted) :
  incl ids ids' -> solicited ids f -> solicited ids' f.
Proof.
  unfold solicited. destruct (snd f); auto.
Qed.

Lemma orderly_more (ids ids' : list value) (t : Task) :
  incl ids ids' -> orderly ids t -> orderly ids' t.
Proof.
  intros Hincl. destruct t as [| k | k | k]; simpl; auto;
    intros H o now st; destruct (H o now st) as (H1 & H2 & H3);
    (split; [exact H1|]); (split; [exact H2|]);
    (eapply Forall_impl; [| exact H3]); intros f; apply solicited_more, Hincl.
Qed.

Lemma tidy_more (ids ids' : list value) (w : World) :
  incl ids ids' -> tidy ids w -> tidy ids' w.
Proof.
  intros Hincl [Htasks Hposted]. split.
  - eapply Forall_impl; [| exact Htasks]. intros t. apply orderly_more, Hincl.
  - eapply Forall_impl; [| exact Hposted]. intros f. apply solicited_more, Hincl.
Qed.

(** The listener on the native port opens no channel, posts at most the
    response to the request id of its frame, and leaves an orderly task. *)
Lemma onMessage_is_orderly (m : Message) (now : Z) (st : State) :
  channels_opened (trace_of (onMessage m now st)) = 0%nat /\
  Forall (solicited (request_id_of (PortMessage m)))
         (posted (trace_of (onMessage m now st))) /\
  orderly (request_id_of (PortMessage m)) (result_of (onMessage m now st)).
Proof.
  unfold request_id_of.
  destruct (type m) as [[] | b | v] eqn:Hty; run_listener; rewrite Hty; cbn;
    try (split; [reflexivity|]; split; [constructor|];
         first [ exact I
               | intros o now' st'; destruct o; unfold result_of, trace_of; cbn;
                 repeat split; constructor ]; fail).
  - (* PROCESS_DATA *)
    destruct (truthy (requestId m)); cbn; [| repeat split; constructor].
    destruct (nativePort st); cbn; repeat split; repeat constructor.
  - (* CALL_TOOL *)
    destruct (truthy (requestId m)); cbn; [| repeat split; constructor].
    split; [reflexivity|]. split; [constructor|].
    intros [r | err] now' st'; unfold result_of, trace_of; cbn;
      destruct (nativePort st'); cbn; repeat split; repeat constructor;
      cbn; auto.
Qed.

(** The runtime listener posts at most the start frame, opens no channel
    while a port is held, and leaves an orderly task. *)
Lemma onRuntimeMessage_is_orderly (m : RuntimeMessage) (c : completion Port)
    (now : Z) (st : State) :
  (nativePort st <> None ->
   channels_opened (trace_of (onRuntimeMessage m c now st)) = 0%nat) /\
  Forall (solicited []) (posted (trace_of (onRuntimeMessage m c now st))) /\
  orderly [] (snd (result_of (onRuntimeMessage m c now st))).
Proof.
  run_runtime_listener.
  destruct m as [[[] | [] | v] | [[] | [] | v] p]; cbn;
    destruct (nativePort st); destruct c; cbn;
    (split; [intros H; try reflexivity; congruence|]);
    (split; [repeat constructor|]);
    try exact I;
    intros [[? |] | ?] ? ?; unfold result_of, trace_of; cbn;
    repeat split; constructor.
Qed.

Lemma posted_of_tidy_run (ids more : list value) (w : World) (ts : list Task)
    (st' : State) (e : list Effect) :
  tidy ids w ->
  Forall (solicited more) (posted e) ->
  Forall (orderly (ids ++ more)) ts ->
  tidy (ids ++ more) (world_after w ts (st', e)).
Proof.
  intros [Htasks Hposted] He Hts. split; [exact Hts|].
  unfold world_after. cbn [trace snd]. rewrite posted_app.
  apply Forall_app. split.
  - eapply Forall_impl; [| exact Hposted].
    intros f. apply solicited_more, incl_appl, incl_refl.
  - eapply Forall_impl; [| exact He].
    intros f. apply solicited_more, incl_appr, incl_refl.
Qed.

Lemma orderly_tasks_more (ids more : list value) (ts : list Task) :
  Forall (orderly ids) ts -> Forall (orderly (ids ++ more)) ts.
Proof.
  apply Forall_impl. intros t. apply orderly_more, incl_appl, incl_refl.
Qed.

Lemma orderly_park (ids : list value) (t : Task) :
  orderly ids t -> Forall (orderly ids) (park t).
Proof.
  destruct t; simpl park; intros H;
    [ constructor | apply Forall_cons; [exact H | constructor] .. ].
Qed.

(** What a step adds to the trace when it resumes an orderly task. *)
Lemma resumed_orderly (ids : list value) (t : Task) (o : settled) (now : Z)
    (st : State) :
  orderly ids t ->
  channels_opened (trace_of (resume t o now st)) = 0%nat /\
  Forall (solicited ids) (posted (trace_of (resume t o now st))) /\
  orderly ids (result_of (resume t o now st)).
Proof.
  destruct t as [| k | k | k]; intros H.
  - split; [reflexivity|]. split; [constructor | exact I].
  - destruct (H o now st) as (H1 & H2 & H3). cbn [resume]. rewrite H1.
    split; [exact H2|]. split; [exact H3 | exact I].
  - destruct (H o now st) as (H1 & H2 & H3). cbn [resume]. rewrite H1.
    split; [exact H2|]. split; [exact H3 | exact I].
  - split; [reflexivity|]. split; [constructor | exact H].
Qed.

Lemma resumed_get_orderly (ids : list value) (t : Task) (o : get_outcome)
    (now : Z) (st : State) :
  orderly ids t ->
  channels_opened (trace_of (resume_get t o now st)) = 0%nat /\
  Forall (solicited ids) (posted (trace_of (resume_get t o now st))) /\
  orderly ids (result_of (resume_get t o now st)).
Proof.
  destruct t as [| k | k | k]; intros H.
  - split; [reflexivity|]. split; [constructor | exact I].
  - split; [reflexivity|]. split; [constructor | exact H].
  - split; [reflexivity|]. split; [constructor | exact H].
  - destruct (H o now st) as (H1 & H2 & H3). cbn [resume_get]. rewrite H1.
    split; [exact H2|]. split; [exact H3 | exact I].
Qed.

(** Every event keeps the world tidy, its request id added to the ids. *)
Lemma step_is_tidy (ids : list value) (now : Z) (ev : Event) (w : World) :
  tidy ids w -> tidy (ids ++ request_id_of ev) (step now ev w).
Proof.
  intros Hw. pose proof Hw as [Htasks Hposted].
  destruct ev as [| m | | m c | c | i o | i o | o]; unfold step.
  - run_runtime_listener. cbn.
    apply posted_of_tidy_run; [exact Hw | constructor |].
    apply Forall_app. split; [apply orderly_tasks_more, Htasks|].
    apply Forall_cons; [| constructor]. unfold orderly.
    intros [[? |] | ?] ? ?; unfold result_of, trace_of; cbn;
      repeat split; constructor.
  - destruct (onMessage_is_orderly m now (module_state w)) as (_ & Hp & Ht).
    unfold trace_of, result_of in *.
    destruct (onMessage m now (module_state w)) as [[t st'] e]. cbn in *.
    apply posted_of_tidy_run; [exact Hw | exact Hp |].
    apply Forall_app. split; [apply orderly_tasks_more, Htasks|].
    apply orderly_park. eapply orderly_more; [| exact Ht].
    apply incl_appr, incl_refl.
  - run_runtime_listener. cbn.
    apply posted_of_tidy_run; [exact Hw | constructor |].
    apply orderly_tasks_more, Htasks.
  - destruct (onRuntimeMessage_is_orderly m c now (module_state w))
      as (_ & Hp & Ht).
    unfold trace_of, result_of in *.
    destruct (onRuntimeMessage m c now (module_state w)) as [[[r t] st'] e].
    cbn in *.
    apply posted_of_tidy_run; [exact Hw | exact Hp |].
    apply Forall_app. split; [apply orderly_tasks_more, Htasks|].
    apply orderly_park. eapply orderly_more; [| exact Ht].
    intros x [].
  - run_runtime_listener.
    destruct (nativePort (module_state w)); [| destruct c]; cbn;
      (apply posted_of_tidy_run;
       [exact Hw | repeat constructor | apply orderly_tasks_more, Htasks]).
  - destruct (nth_error (suspended w) i) as [t |] eqn:Hi;
      [| cbn [request_id_of]; rewrite app_nil_r; exact Hw].
    assert (Ht : orderly ids t).
    { eapply Forall_forall; [exact Htasks | eapply nth_error_In, Hi]. }
    destruct (resumed_orderly ids t o now (module_state w) Ht) as (_ & Hp & Hr).
    unfold trace_of, result_of in *.
    destruct (resume t o now (module_state w)) as [[t' st'] e]. cbn in *.
    rewrite app_nil_r. split.
    + apply Forall_replaced; [exact Htasks|]. apply orderly_park, Hr.
    + unfold world_after. cbn [trace snd]. rewrite posted_app.
      apply Forall_app. split; assumption.
  - destruct (nth_error (suspended w) i) as [t |] eqn:Hi;
      [| cbn [request_id_of]; rewrite app_nil_r; exact Hw].
    assert (Ht : orderly ids t).
    { eapply Forall_forall; [exact Htasks | eapply nth_error_In, Hi]. }
    destruct (resumed_get_orderly ids t o now (module_state w) Ht)
      as (_ & Hp & Hr).
    unfold trace_of, result_of in *.
    destruct (resume_get t o now (module_state w)) as [[t' st'] e]. cbn in *.
    rewrite app_nil_r. split.
    + apply Forall_replaced; [exact Htasks|]. apply orderly_park, Hr.
    + unfold world_after. cbn [trace snd]. rewrite posted_app.
      apply Forall_app. split; assumption.
  - destruct o; cbn;
      (apply posted_of_tidy_run;
       [exact Hw | constructor | apply orderly_tasks_more, Htasks]).
Qed.

Lemma steps_are_tidy (schedule : list (Z * Event)) (ids : list value) (w : World) :
  tidy ids w -> tidy (ids ++ request_ids schedule) (steps schedule w).
Proof.
  revert ids w. induction schedule as [| [now ev] rest IH]; intros ids w Hw.
  - unfold request_ids. simpl. rewrite app_nil_r. exact Hw.
  - unfold request_ids. simpl. rewrite app_assoc.
    apply IH, step_is_tidy, Hw.
Qed.

(** X12. Whatever the worker receives after it is loaded, in whatever
    order, and however the promises it waits for settle, every frame it
    posts on the native port is either the start frame or a response whose
    [responseToRequestId] is the request id of a tool-call or process-data
    frame it has received: it posts no other typed frame and answers no
    request it was not sent. *)
Theorem only_start_frames_and_solicited_responses_are_posted
    (now : Z) (schedule : list (Z * Event)) (p : Port) (f : Posted) :
  In (p, f) (posted (trace (steps schedule (loaded now)))) ->
  match f with
  | Response rid _ => In rid (request_ids schedule)
  | Typed t _ => t = START
  end.
Proof.
  intros Hin.
  assert (Htidy : tidy ([] ++ request_ids schedule) (steps schedule (loaded now))).
  { apply steps_are_tidy. split; constructor. }
  destruct Htidy as [_ Hposted].
  apply (proj1 (Forall_forall _ _) Hposted (p, f) Hin).
Qed.

Lemma step_opens_no_channel_while_held (ids : list value) (now : Z) (ev : Event)
    (w : World) (p : Port) :
  tidy ids w ->
  nativePort (module_state w) = Some p ->
  channels_opened (trace (step now ev w)) = channels_opened (trace w).
Proof.
  intros [Htasks _] Hport.
  assert (Hadd : forall ts st' e,
             channels_opened e = 0%nat ->
             channels_opened (trace (world_after w ts (st', e)))
             = channels_opened (trace w)).
  { intros ts st' e He. unfold world_after. cbn [trace snd].
    rewrite channels_opened_app, He. apply Nat.add_0_r. }
  destruct ev as [| m | | m c | c | i o | i o | o]; unfold step.
  - assert (Hc : channels_opened
                   (trace_of (initNativeHostListener now (module_state w))) = 0%nat)
      by (run_runtime_listener; reflexivity).
    unfold trace_of in Hc.
    destruct (initNativeHostListener now (module_state w)) as [[t st'] e].
    apply Hadd, Hc.
  - destruct (onMessage_is_orderly m now (module_state w)) as (Hc & _ & _).
    unfold trace_of in Hc.
    destruct (onMessage m now (module_state w)) as [[t st'] e].
    apply Hadd, Hc.
  - assert (Hc : channels_opened
                   (trace_of (onDisconnect now (module_state w))) = 0%nat)
      by (run_runtime_listener; reflexivity).
    unfold trace_of in Hc.
    destruct (onDisconnect now (module_state w)) as [[t st'] e].
    apply Hadd, Hc.
  - destruct (onRuntimeMessage_is_orderly m c now (module_state w))
      as (Hc & _ & _).
    unfold trace_of in Hc.
    destruct (onRuntimeMessage m c now (module_state w)) as [[[r t] st'] e].
    apply Hadd, Hc. congruence.
  - assert (Hc : channels_opened
                   (trace_of (onStartup c now (module_state w))) = 0%nat)
      by (run_runtime_listener; rewrite Hport; reflexivity).
    unfold trace_of in Hc.
    destruct (onStartup c now (module_state w)) as [[t st'] e].
    apply Hadd, Hc.
  - destruct (nth_error (suspended w) i) as [t |] eqn:Hi; [| reflexivity].
    assert (Ht : orderly ids t).
    { eapply Forall_forall; [exact Htasks | eapply nth_error_In, Hi]. }
    destruct (resumed_orderly ids t o now (module_state w) Ht) as (Hc & _ & _).
    unfold trace_of in Hc.
    destruct (resume t o now (module_state w)) as [[t' st'] e].
    apply Hadd, Hc.
  - destruct (nth_error (suspended w) i) as [t |] eqn:Hi; [| reflexivity].
    assert (Ht : orderly ids t).
    { eapply Forall_forall; [exact Htasks | eapply nth_error_In, Hi]. }
    destruct (resumed_get_orderly ids t o now (module_state w) Ht)
      as (Hc & _ & _).
    unfold trace_of in Hc.
    destruct (resume_get t o now (module_state w)) as [[t' st'] e].
    apply Hadd, Hc.
  - assert (Hc : channels_opened
                   (trace_of (broadcast_settled o now (module_state w))) = 0%nat)
      by (destruct o; reflexivity).
    unfold trace_of in Hc.
    destruct (broadcast_settled o now (module_state w)) as [[t st'] e].
    apply Hadd, Hc.
Qed.

Lemma no_channel_while_held (schedule : list (Z * Event)) (ids : list value)
    (w : World) (p : Port) :
  consistent w -> tidy ids w ->
  nativePort (module_state w) = Some p ->
  forallb (fun e => negb (drops_port (snd e))) schedule = true ->
  channels_opened (trace (steps schedule w)) = channels_opened (trace w).
Proof.
  revert ids w. induction schedule as [| [now ev] rest IH];
    intros ids w Hw Ht Hport Hkeep.
  - reflexivity.
  - simpl in Hkeep. apply andb_true_iff in Hkeep. destruct Hkeep as [Hev Hrest].
    apply negb_true_iff in Hev. simpl.
    rewrite (IH (ids ++ request_id_of ev)%list);
      [ eapply step_opens_no_channel_while_held; eassumption
      | apply step_is_consistent, Hw
      | apply step_is_tidy, Ht
      | apply step_keeps_port; assumption
      | exact Hrest ].
Qed.

(** X13. Once the worker holds a port, it opens no further channel until
    the port reports disconnection or a disconnect request arrives: over any
    schedule without those two events, whatever connect requests and startup
    events it contains, the number of channels opened does not change and
    the module still holds the same port. *)
Theorem no_second_channel_while_connected
    (now : Z) (before after : list (Z * Event)) (p : Port) :
  let w := steps before (loaded now) in
  nativePort (module_state w) = Some p ->
  forallb (fun e => negb (drops_port (snd e))) after = true ->
  channels_opened (trace (steps after w)) = channels_opened (trace w) /\
  nativePort (module_state (steps after w)) = Some p.
Proof.
  intros w Hport Hkeep.
  assert (Hw : consistent w).
  { apply steps_are_consistent. split; [reflexivity | constructor]. }
  assert (Ht : tidy ([] ++ request_ids before) w).
  { apply steps_are_tidy. split; constructor. }
  split.
  - eapply no_channel_while_held; eassumption.
  - apply (port_is_held_until_dropped after w p Hw Hkeep Hport).
Qed.

(** X14. After the module has let go of its port, on a disconnection
    reported by the port or on a disconnect request, the next connect
    request opens a new channel: if it obtains port [q], the module holds
    [q], exactly one more channel has been opened, and the one frame posted
    since is the start frame on [q] with the port the request asked for. *)
Theorem reconnecting_after_a_disconnection
    (w : World) (drop : Event) (ask : RuntimeMessage) (q : Port) (n1 n2 : Z) :
  drops_port drop = true ->
  is_connect_request ask = true ->
  let w' := steps [(n1, drop); (n2, RuntimeMessageReceived ask (Returned q))] w in
  nativePort (module_state w') = Some q /\
  channels_opened (trace w') = S (channels_opened (trace w)) /\
  posted (trace w')
  = (posted (trace w)
     ++ [(q, Typed START (VObj [("port", requested_port ask)]))])%list.
Proof.
  intros Hdrop Hask. cbv zeta. cbn [steps].
  assert (Hdropped : exists e,
             step n1 drop w
             = {| module_state :=
                    {| nativePort := None;
                       currentServerStatus := currentServerStatus (module_state w) |};
                  suspended := suspended w;
                  trace := (trace w ++ e)%list |}
             /\ channels_opened e = 0%nat /\ posted e = []).
  { destruct w as [[held status] tasks tr].
    destruct drop as [| m | | m c | c | i o | i o | o]; try discriminate.
    - eexists. split; [reflexivity|]. split; reflexivity.
    - simpl in Hdrop. destruct m as [s | ty v]; [discriminate|].
      simpl in Hdrop. apply is_native_exactly in Hdrop. subst ty.
      unfold step. run_runtime_listener. cbn.
      destruct held; cbn; unfold world_after; cbn; rewrite app_nil_r;
        eexists; (split; [reflexivity|]); split; reflexivity. }
  destruct Hdropped as (e & Hstep & Hc & Hp). rewrite Hstep.
  unfold step. cbn [module_state].
  rewrite (connect_request_run ask (Returned q) n2 _ Hask).
  rewrite connectNativeHost_on_request. cbn [nativePort state_of trace_of fst snd].
  unfold world_after. cbn [module_state trace fst snd nativePort].
  split; [reflexivity|].
  rewrite !channels_opened_app, !posted_app, Hc, Hp. cbn.
  rewrite app_nil_r. split; [| reflexivity].
  rewrite Nat.add_0_r. apply Nat.add_1_r.
Qed.

End FurtherScheduleFacts.

(* ===================================================================== *)
(** * Further properties of persistence *)
(* ===================================================================== *)

Section FurtherPersistenceFacts.
Context {K : Constants}.

Lemma ended_after_attempt (l : list Effect) :
  phase_after Attempted l = Ended ->
  exists b e c, l = (b ++ e :: c)%list /\ write_ended e = true.
Proof.
  induction l as [| x l IH]; simpl; [discriminate|].
  destruct (write_ended x) eqn:Hx; intros H.
  - exists [], x, l. split; [reflexivity | exact Hx].
  - destruct (IH H) as (b & e & c & -> & He).
    exists (x :: b), e, c. split; [reflexivity | exact He].
Qed.

Lemma ended_from_nothing (l : list Effect) :
  phase_after NotAttempted l = Ended ->
  exists a key status b e c,
    l = (a ++ StorageSet key status :: b ++ e :: c)%list /\ write_ended e = true.
Proof.
  induction l as [| x l IH]; simpl; [discriminate|]. intros H.
  destruct x as [ | | | | | | key status | | | | | | ];
    try (destruct (IH H) as (a & key' & status' & b & e & c & -> & He);
         eexists (_ :: a), key', status', b, e, c;
         split; [reflexivity | exact He]).
  destruct (ended_after_attempt l H) as (b & e & c & -> & He).
  exists [], key, status, b, e, c. split; [reflexivity | exact He].
Qed.

Lemma broadcast_needs_ended (pre post : list Effect) (ph : Phase)
    (ty : BackgroundMessageType) (s : ServerStatus) :
  persisted_before_broadcast ph (pre ++ RuntimeSendMessage ty s :: post) = true ->
  phase_after ph pre = Ended.
Proof.
  rewrite persisted_app. intros H. apply andb_true_iff in H.
  destruct H as [_ H]. simpl in H.
  destruct (phase_after ph pre); [discriminate | discriminate | reflexivity].
Qed.

(** X9. Whatever the worker receives after it is loaded, in whatever order,
    and however the promises it waits for settle: before every broadcast of
    a status change in its trace there is a write of the status to storage
    and, after that write, the console line that records the end of a write
    (saved, or failed to save). *)
Theorem every_broadcast_follows_an_ended_write
    (now : Z) (schedule : list (Z * Event))
    (pre post : list Effect) (ty : BackgroundMessageType) (s : ServerStatus) :
  trace (steps schedule (loaded now)) = (pre ++ RuntimeSendMessage ty s :: post)%list ->
  exists a key status b e c,
    pre = (a ++ StorageSet key status :: b ++ e :: c)%list /\
    write_ended e = true.
Proof.
  intros Htrace.
  pose proof (broadcasts_always_follow_persistence now schedule) as H.
  rewrite Htrace in H.
  apply ended_from_nothing. eapply broadcast_needs_ended, H.
Qed.

End FurtherPersistenceFacts.

(* ===================================================================== *)
(** * Further properties of the tool handlers *)
(* ===================================================================== *)

Section FurtherToolFacts.
Import RegisterTools.

(** X15. [listTools] has no handler of its own for failures.  When the
    request is rejected it fails with the very value of the rejection; when
    the request resolves with [null] or [undefined] it fails on reading
    [data]; when it resolves with a reply that has no [data], it returns
    [tools: undefined]. *)
Theorem listTools_failure_modes (e reply : value) (fields : list (string * value)) :
  RegisterTools.run listTools [Rejected e] = Some (Thrown e) /\
  (nullish reply = true ->
   exists t, RegisterTools.run listTools [Resolved reply] = Some (Thrown t)) /\
  (lookup "data" fields = VUndefined ->
   RegisterTools.run listTools [Resolved (VObj fields)]
   = Some (Returned {| tools := VUndefined |})).
Proof.
  split; [reflexivity|]. split.
  - intros H. simpl. unfold get. rewrite H. eexists. reflexivity.
  - intros H. simpl. unfold get. simpl. rewrite H. reflexivity.
Qed.

(** X16. When the request of [handleToolCall] is rejected with anything but
    [null] or [undefined], the handler returns one text item that reads
    ['Error calling tool: '] followed by the [message] of the rejection, and
    [isError] is true.  The message is read as a property: for an [Error] it
    is its message; for a rejection with a bare string, a number or a
    boolean, which have no such property, the text ends in ['undefined'],
    whatever the string said. *)
Theorem handleToolCall_error_text (name : string) (args e : value) :
  nullish e = false ->
  RegisterTools.run (handleToolCall name args) [Rejected e]
  = Some (Returned
      {| content :=
           [ {| item_type := "text";
                text := VStr ("Error calling tool: " ++ String_ (get_opt e "message")) |} ];
         isError := true |}) /\
  (forall m, e = VError m -> get_opt e "message" = VStr m) /\
  (instanceof_Error e = false -> (forall fields, e <> VObj fields) ->
   String_ (get_opt e "message") = "undefined").
Proof.
  intros H. split; [| split].
  - simpl. unfold get. rewrite H. reflexivity.
  - intros m ->. reflexivity.
  - intros He Hobj.
    destruct e as [ | | b | n | s | l | fields | m]; try reflexivity;
      try discriminate.
    exfalso. apply (Hobj fields). reflexivity.
Qed.

(** X17. When the request of [handleToolCall] resolves, the handler returns
    one text item holding [JSON.stringify] of what it resolved with and
    [isError] is false, whatever the reply says: a reply whose payload has
    status ['error'] is returned as a result that is not an error.  The text
    is a string except when the request resolved with [undefined]. *)
Theorem handleToolCall_success_is_never_an_error
    (name : string) (args response : value) :
  exists r,
    RegisterTools.run (handleToolCall name args) [Resolved response]
    = Some (Returned r) /\
    isError r = false /\
    content r = [ {| item_type := "text"; text := JSON_stringify response |} ] /\
    (forallb text_is_string (content r) = true <-> response <> VUndefined).
Proof.
  eexists. split; [reflexivity|]. split; [reflexivity|]. split; [reflexivity|].
  cbn [content forallb]. unfold text_is_string. cbn [text]. split.
  - intros H ->. discriminate H.
  - intros H. destruct (JSON_stringify_is_text response H) as [s Hs].
    rewrite Hs. reflexivity.
Qed.

(** X18. The handler registered for tool calls never sends a falsy [args]:
    the request it issues carries the caller's [arguments] when these are
    truthy and the empty object otherwise (absent, [null], [0], the empty
    string, [false]), always with the tool's name, type [CALL_TOOL] and a
    timeout of 30000 ms. *)
Theorem callTool_args_are_never_missing (name : string) (arguments : value) :
  exists args,
    issued (callTool name arguments)
    = Some {| messagePayload := VObj [("name", VStr name); ("args", args)];
              messageType := CALL_TOOL;
              timeoutMs := 30000 |} /\
    truthy args = true /\
    (truthy arguments = true -> args = arguments) /\
    (truthy arguments = false -> args = VObj []).
Proof.
  exists (or_else arguments (VObj [])). split; [reflexivity|].
  unfold or_else. destruct (truthy arguments) eqn:H; repeat split; congruence.
Qed.

End FurtherToolFacts.

(* ===================================================================== *)
(** * Further properties of the process handlers *)
(* ===================================================================== *)

Section FurtherProcessFacts.
Import Bootstrap.
Variable env : Environment.

Lemma process_exit_spec (code : Z) (p : Process) :
  process_exit env code p
  = {| appends :=
         (appends p
          ++ [(log_line env ("Process exiting with code: " ++ string_of_Z code) p,
               append_succeeds env p)])%list;
       exited := Some code |}.
Proof.
  unfold process_exit, on_exit, end_process. rewrite log_spec. reflexivity.
Qed.

Lemma handle_spec (ev : ProcessEvent) (p : Process) :
  handle env ev p
  = match exit_code_of ev, message_of ev with
    | Some code, Some message => process_exit env code (log env message p)
    | Some code, None => end_process code p
    | None, Some message => log env message p
    | None, None => p
    end.
Proof.
  destruct ev as [error | | | error | reason]; try reflexivity;
    (destruct error as [e | v]; [reflexivity | destruct v; reflexivity]).
Qed.

(** X19. Each event that ends the process, while the listeners are
    registered, ends it with its code.  When the listener gets to its call
    of [log] it first hands its own line to [log], then the line
    ['Process exiting with code: '] with its code (the exit listener runs
    inside [process.exit]); both lines are attempted also when the log cannot
    be written, and the code is 0 for SIGINT and SIGTERM, 1 for an error
    event and for an uncaught exception.  The one event that ends the process
    without a line is an uncaught exception whose value is [null] or
    [undefined]: the listener throws on [error.message], nothing is handed
    to [log], and the code is 7. *)
Theorem exiting_listeners_log_then_exit
    (ev : ProcessEvent) (code : Z) (p : Process) :
  exit_code_of ev = Some code ->
  let p' := handle env ev p in
  exited p' = Some code /\
  match message_of ev with
  | Some message =>
      log_attempts p'
      = (log_attempts p
         ++ [log_line env message p;
             log_line env ("Process exiting with code: " ++ string_of_Z code)
               (log env message p)])%list /\
      (code = 0 <-> ev = SIGINT \/ ev = SIGTERM) /\
      (code = 1 <-> exists error, ev = ErrorEvent error \/ ev = UncaughtException error)
  | None =>
      log_attempts p' = log_attempts p /\
      code = 7 /\
      exists error, ev = UncaughtException error /\ unreadable error = true
  end.
Proof.
  intros Hcode. cbv zeta. rewrite handle_spec, Hcode.
  destruct (message_of ev) as [message |] eqn:Hmessage.
  - rewrite process_exit_spec. split; [reflexivity|]. split; [| split].
    + unfold log_attempts. cbn [appends]. rewrite log_spec. cbn [appends].
      rewrite !map_app, <- app_assoc. reflexivity.
    + destruct ev as [error | | | error | reason]; simpl in Hcode, Hmessage;
        try destruct (unreadable error); inversion Hcode; subst; split;
        intros H; try reflexivity; try discriminate; auto;
        destruct H as [H | H]; discriminate H.
    + destruct ev as [error | | | error | reason]; simpl in Hcode, Hmessage;
        try destruct (unreadable error); inversion Hcode; subst; split;
        intros H; try reflexivity; try discriminate;
        try (exists error; auto; fail);
        destruct H as [error' [H | H]]; discriminate H.
  - split; [reflexivity|]. split; [reflexivity|].
    destruct ev as [error | | | error | reason]; simpl in Hcode, Hmessage;
      try discriminate;
      destruct (unreadable error) eqn:Hread; try discriminate.
    inversion Hcode; subst. split; [reflexivity|].
    exists error. split; [reflexivity | exact Hread].
Qed.

(** X20. The top-level block logs ['Starting native server...'] first.  If
    wiring and starting the server succeed it logs the success line and the
    process goes on; if they throw, it logs ['Error starting server: '] with
    the message of the error (or its string form when it is not an [Error])
    and the process ends with code 1.  No exit line follows: the exit
    listener is registered by a later statement of the script, which the
    process does not reach. *)
Theorem main_exits_only_when_startup_fails
    (startup : completion unit) (p : Process) :
  let p' := main env startup p in
  let first := log_line env "Starting native server..." p in
  let p1 := log env "Starting native server..." p in
  match startup with
  | Returned _ =>
      exited p' = exited p /\
      log_attempts p'
      = (log_attempts p
         ++ [first; log_line env "Native server started successfully" p1])%list
  | Thrown error =>
      let text := if instanceof_Error error
                  then String_ (get_opt error "message")
                  else String_ error in
      exited p' = Some 1 /\
      log_attempts p'
      = (log_attempts p
         ++ [first; log_line env ("Error starting server: " ++ text) p1])%list
  end.
Proof.
  cbv zeta. unfold main. destruct startup as [u | error].
  - rewrite !log_spec. unfold log_attempts. cbn [appends exited].
    split; [reflexivity|]. rewrite !map_app, <- app_assoc. reflexivity.
  - unfold end_process, log_attempts. cbn [appends exited].
    split; [reflexivity|]. rewrite !log_spec. cbn [appends].
    rewrite !map_app, <- !app_assoc. reflexivity.
Qed.

Lemma deliver_all_exited (evs : list ProcessEvent) (p : Process) (code : Z) :
  exited p = Some code -> deliver_all env evs p = p.
Proof.
  revert p. induction evs as [| ev rest IH]; intros p H; simpl.
  - reflexivity.
  - unfold deliver at 1. rewrite H. apply IH, H.
Qed.

(** X21. A running process goes through any number of unhandled
    rejections without ending, and ends at the first event that ends it,
    with that event's code: 0 for SIGINT and SIGTERM, 1 for an error event
    and for an uncaught exception whose [message] can be read, 7 for an
    uncaught exception of [null] or [undefined], where the listener itself
    throws.  Over any sequence of events the exit code at the end is the
    code of the first such event, and the process is still running when
    there is none. *)
Theorem exit_is_decided_by_the_first_exiting_event
    (evs : list ProcessEvent) (p : Process) :
  exited p = None ->
  exited (deliver_all env evs p) = first_exit evs.
Proof.
  revert p. induction evs as [| ev rest IH]; intros p Hp; simpl.
  - exact Hp.
  - unfold deliver. rewrite Hp, handle_spec.
    destruct (exit_code_of ev) as [code |] eqn:Hcode;
      destruct (message_of ev) as [message |].
    + rewrite (deliver_all_exited rest _ code);
        rewrite process_exit_spec; reflexivity.
    + rewrite (deliver_all_exited rest _ code); reflexivity.
    + apply IH. rewrite log_spec. exact Hp.
    + apply IH. exact Hp.
Qed.

Lemma log_file_of_log (message : string) (p : Process) :
  log_file (log env message p)
  = (log_file p
     ++ (if append_succeeds env p then [log_line env message p] else []))%list.
Proof. rewrite log_spec. apply log_file_app. Qed.

Lemma handle_only_appends (ev : ProcessEvent) (p : Process) :
  exists added, log_file (handle env ev p) = (log_file p ++ added)%list.
Proof.
  rewrite handle_spec.
  destruct (exit_code_of ev) as [code |]; destruct (message_of ev) as [message |].
  - rewrite process_exit_spec.
    rewrite (log_file_app (log env message p) _ _ (Some code)).
    rewrite log_file_of_log, <- app_assoc. eexists. reflexivity.
  - exists []. unfold end_process, log_file. cbn [appends].
    symmetry. apply app_nil_r.
  - rewrite log_file_of_log. eexists. reflexivity.
  - exists []. symmetry. apply app_nil_r.
Qed.

(** X22. The log file is only ever appended to: over any sequence of
    process events, what the file held before is still there, unchanged and
    at the start, whether or not the appends go through. *)
Theorem log_file_only_grows (evs : list ProcessEvent) (p : Process) :
  exists added, log_file (deliver_all env evs p) = (log_file p ++ added)%list.
Proof.
  revert p. induction evs as [| ev rest IH]; intros p; simpl.
  - exists []. symmetry. apply app_nil_r.
  - destruct (IH (deliver env ev p)) as [more Hmore]. rewrite Hmore.
    unfold deliver. destruct (exited p).
    + exists more. reflexivity.
    + destruct (handle_only_appends ev p) as [added Hadded]. rewrite Hadded.
      exists (added ++ more)%list. symmetry. apply app_assoc.
Qed.

End FurtherProcessFacts.

(* ===================================================================== *)
(** * The further properties at concrete inputs *)
(* ===================================================================== *)

Lemma tool_success_is_answered_at_req_1 :
  let K := sample_constants in
  type tool_call_frame = TNative CALL_TOOL /\
  truthy (requestId tool_call_frame) = true /\
  exists k,
    result_of (onMessage tool_call_frame 2 (connected_to 7%nat 0))
    = AwaitHandleCallTool k /\
    posted (trace_of (k (Resolved (VStr "done")) 4 (connected_to 7%nat 0)))
    = [(7%nat, Response (VStr "req-1")
                 (VObj [("status", VStr "success");
                        ("message", VStr "Tool executed successfully");
                        ("data", VStr "done")]))].
Proof.
  intros K. split; [reflexivity|]. split; [reflexivity|].
  destruct (tool_success_is_answered_if_connected (K := K) tool_call_frame 2
              (connected_to 7%nat 0) (VStr "done") 4 (connected_to 7%nat 0)
              eq_refl eq_refl) as (k & Hk & _ & _ & Hposted).
  exists k. split; [exact Hk | exact Hposted].
Defined.

Lemma error_from_native_host_is_only_logged_at_req_9 :
  let K := sample_constants in
  let frame := {| type := TNative ERROR_FROM_NATIVE_HOST;
                  requestId := VStr "req-9";
                  payload := VObj [("message", VStr "port in use")] |} in
  type frame = TNative ERROR_FROM_NATIVE_HOST /\
  onMessage frame 3 (connected_to 7%nat 0)
  = (Finished, connected_to 7%nat 0,
     [Console Log "[native] Received message from native host:";
      Console Error "[native] Error from native host:"]).
Proof.
  intros K frame. split; [reflexivity|].
  apply (error_from_native_host_is_only_logged (K := K) frame 3
           (connected_to 7%nat 0)).
  reflexivity.
Defined.

Lemma connect_request_reports_success_when_it_fails :
  let K := sample_constants in
  let r := onRuntimeMessage connect_to_4000 (Thrown (VError "host not found")) 1
             (initial_state 0) in
  is_connect_request connect_to_4000 = true /\
  responses (trace_of r) = [ConnectResponse true (VNum 4000)] /\
  nativePort (state_of r) = None.
Proof.
  intros K r. split; [reflexivity|].
  destruct (connect_request_always_reports_success (K := K) connect_to_4000
              (Thrown (VError "host not found")) 1 (initial_state 0) eq_refl)
    as (_ & Hresp & _ & Hport & _).
  split; [exact Hresp | exact Hport].
Defined.

Lemma disconnect_request_drops_port_7 :
  let K := sample_constants in
  let r := onRuntimeMessage disconnect_request (Returned 8%nat) 1
             (connected_to 7%nat 0) in
  is_native (runtime_type disconnect_request) DISCONNECT_NATIVE = true /\
  nativePort (state_of r) = None /\
  disconnected (trace_of r) = [7%nat] /\
  responses (trace_of r) = [DisconnectResponse true None].
Proof.
  intros K r. split; [reflexivity|].
  destruct (disconnect_request_drops_the_port (K := K) disconnect_request
              (Returned 8%nat) 1 (connected_to 7%nat 0) eq_refl)
    as (_ & Hport & _ & _ & Hdis & Hresp).
  split; [exact Hport|]. split; [exact Hdis | exact Hresp].
Defined.

Lemma ping_after_a_connect_request :
  let K := sample_constants in
  let ping := ObjectMessage (TNative PING_NATIVE) VUndefined in
  is_native (runtime_type ping) PING_NATIVE = true /\
  is_connect_request connect_to_4000 = true /\
  nativePort (initial_state 0) = None /\
  responses
    (trace_of
       (onRuntimeMessage ping (Returned 9%nat) 2
          (state_of (onRuntimeMessage connect_to_4000 (Returned 7%nat) 1
                       (initial_state 0)))))
  = [PingResponse true].
Proof.
  intros K ping. split; [reflexivity|]. split; [reflexivity|].
  split; [reflexivity|].
  apply (ping_reports_whether_a_port_is_held (K := K) ping connect_to_4000
           (Returned 9%nat) 7%nat 1 2 (initial_state 0)
           eq_refl eq_refl).
  reflexivity.
Defined.

Lemma bare_ping_is_ignored :
  let K := sample_constants in
  is_handled bare_ping = false /\
  onRuntimeMessage bare_ping (Returned 8%nat) 1 (connected_to 7%nat 0)
  = (false, Finished, connected_to 7%nat 0,
     [Console Log "[native] Received runtime message:";
      Console Log "[native] Unhandled runtime message type:"]).
Proof.
  intros K. split; [reflexivity|].
  apply (unhandled_runtime_message_is_ignored (K := K) bare_ping
           (Returned 8%nat) 1 (connected_to 7%nat 0)).
  reflexivity.
Defined.

Lemma refresh_after_a_failed_read :
  let K := sample_constants in
  is_background (runtime_type refresh_request) REFRESH_SERVER_STATUS = true /\
  exists k,
    result_of (onRuntimeMessage refresh_request (Returned 8%nat) 1
                 (connected_to 7%nat 0))
    = (true, AwaitStorageGet k) /\
    responses (trace_of (k (GetRejected (VError "storage unavailable")) 5
                           (connected_to 7%nat 0)))
    = [StatusResponse true None
         {| isRunning := false; port := VUndefined; lastUpdated := 5 |} true].
Proof.
  intros K. split; [reflexivity|].
  destruct (refresh_adopts_what_storage_holds (K := K) refresh_request
              (Returned 8%nat) 1 (connected_to 7%nat 0)
              (GetRejected (VError "storage unavailable")) 5
              (connected_to 7%nat 0) eq_refl)
    as (k & Hk & _ & _ & _ & _ & _ & _ & Hresp).
  exists k. split; [exact Hk | exact Hresp].
Defined.

Lemma a_broadcast_and_the_write_before_it :
  let K := sample_constants in
  let schedule := [(1, PortMessage server_started_frame);
                   (2, Settles 0 (Rejected (VError "quota exceeded")))] in
  let running := {| isRunning := true; port := VNum 9222; lastUpdated := 1 |} in
  let pre := [Console Log "[native] Received message from native host:";
              Console Log "[native] Server started notification received for port: 9222";
              Console Log "[native] Saving server status to storage:";
              StorageSet "serverStatus" running;
              Console Error "[native] Failed to save server status";
              Console Log "[native] Broadcasting server status change:"] in
  let post := [Console Log "[native] Server started successfully on port 9222"] in
  trace (steps schedule (loaded 0))
  = (pre ++ RuntimeSendMessage SERVER_STATUS_CHANGED running :: post)%list /\
  exists a key status b e c,
    pre = (a ++ StorageSet key status :: b ++ e :: c)%list /\
    write_ended e = true.
Proof.
  intros K schedule running pre post.
  assert (H : trace (steps schedule (loaded 0))
              = (pre ++ RuntimeSendMessage SERVER_STATUS_CHANGED running :: post)%list)
    by reflexivity.
  split; [exact H|].
  exact (every_broadcast_follows_an_ended_write (K := K) 0 schedule pre post
           SERVER_STATUS_CHANGED running H).
Defined.

Lemma overlapping_notifications_at_9222 :
  let K := sample_constants in
  type server_started_frame = TNative SERVER_STARTED /\
  get_opt (payload server_started_frame) "port" = VNum 9222 /\
  type server_stopped_frame = TNative SERVER_STOPPED /\
  let w := steps [(1, PortMessage server_started_frame);
                  (2, PortMessage server_stopped_frame);
                  (3, Settles 0 (Resolved VUndefined));
                  (4, Settles 0 (Resolved VUndefined))] holding_port_7 in
  let last := {| isRunning := false; port := VNum 9222; lastUpdated := 2 |} in
  currentServerStatus (module_state w) = last /\
  suspended w = [] /\
  broadcasts (trace w) = [last; last].
Proof.
  intros K. split; [reflexivity|]. split; [reflexivity|]. split; [reflexivity|].
  apply (overlapping_notifications_broadcast_the_last_status (K := K) (VNum 9222)
           server_started_frame server_stopped_frame (connected_to 7%nat 0)
           1 2 3 4 (Resolved VUndefined) (Resolved VUndefined));
    reflexivity.
Defined.

Lemma status_survives_a_tool_call_and_a_disconnection :
  let K := sample_constants in
  let schedule := [(1, PortMessage tool_call_frame);
                   (2, RuntimeMessageReceived connect_to_4000 (Returned 8%nat));
                   (3, PortDisconnected);
                   (4, Settles 0 (Rejected (VError "navigation failed")))] in
  consistent holding_port_7 /\
  forallb (fun e => negb (may_change_status (snd e))) schedule = true /\
  currentServerStatus (module_state (steps schedule holding_port_7))
  = currentServerStatus (module_state holding_port_7).
Proof.
  intros K schedule.
  assert (Hw : consistent (K := K) holding_port_7)
    by (split; [reflexivity | constructor]).
  split; [exact Hw|]. split; [reflexivity|].
  apply (status_changes_only_on_notifications_and_reads (K := K) schedule
           holding_port_7 Hw).
  reflexivity.
Defined.

Lemma the_response_to_req_7_was_solicited :
  let K := sample_constants in
  let schedule := [(1, RuntimeMessageReceived connect_to_4000 (Returned 7%nat));
                   (2, PortMessage process_data_frame)] in
  let reply := VObj [("status", VStr "success");
                     ("message", VStr "Tool executed successfully");
                     ("data", payload process_data_frame)] in
  In (7%nat, Response (VStr "req-7") reply)
     (posted (trace (steps schedule (loaded 0)))) /\
  In (VStr "req-7") (request_ids schedule).
Proof.
  intros K schedule reply.
  assert (H : In (7%nat, Response (VStr "req-7") reply)
                 (posted (trace (steps schedule (loaded 0)))))
    by (right; left; reflexivity).
  split; [exact H|].
  exact (only_start_frames_and_solicited_responses_are_posted (K := K) 0 schedule
           7%nat (Response (VStr "req-7") reply) H).
Defined.

Lemma no_second_channel_for_a_second_request :
  let K := sample_constants in
  let before := [(1, RuntimeMessageReceived connect_to_4000 (Returned 7%nat))] in
  let after := [(2, RuntimeMessageReceived connect_to_4000 (Returned 8%nat));
                (3, StartupFired (Returned 9%nat))] in
  let w := steps before (loaded 0) in
  nativePort (module_state w) = Some 7%nat /\
  forallb (fun e => negb (drops_port (snd e))) after = true /\
  channels_opened (trace (steps after w)) = channels_opened (trace w) /\
  nativePort (module_state (steps after w)) = Some 7%nat.
Proof.
  intros K before after w. split; [reflexivity|]. split; [reflexivity|].
  apply (no_second_channel_while_connected (K := K) 0 before after 7%nat);
    reflexivity.
Defined.

Lemma reconnecting_on_port_8 :
  let K := sample_constants in
  let w' := steps [(1, PortDisconnected);
                   (2, RuntimeMessageReceived connect_to_4000 (Returned 8%nat))]
              holding_port_7 in
  drops_port PortDisconnected = true /\
  is_connect_request connect_to_4000 = true /\
  nativePort (module_state w') = Some 8%nat /\
  channels_opened (trace w') = S (channels_opened (trace holding_port_7)) /\
  posted (trace w')
  = (posted (trace holding_port_7)
     ++ [(8%nat, Typed START (VObj [("port", requested_port connect_to_4000)]))])%list.
Proof.
  intros K w'. split; [reflexivity|]. split; [reflexivity|].
  apply (reconnecting_after_a_disconnection (K := K) holding_port_7
           PortDisconnected connect_to_4000 8%nat 1 2);
    reflexivity.
Defined.

Lemma listTools_failure_modes_at_null :
  nullish VNull = true /\
  lookup "data" [("status", VStr "success")] = VUndefined /\
  (exists t,
      RegisterTools.run RegisterTools.listTools [Resolved VNull] = Some (Thrown t)) /\
  RegisterTools.run RegisterTools.listTools
    [Resolved (VObj [("status", VStr "success")])]
  = Some (Returned {| RegisterTools.tools := VUndefined |}).
Proof.
  split; [reflexivity|]. split; [reflexivity|].
  destruct (listTools_failure_modes (VError "closed") VNull
              [("status", VStr "success")]) as (_ & Hnull & Hdata).
  split; [apply Hnull; reflexivity | apply Hdata; reflexivity].
Defined.

Lemma handleToolCall_error_text_for_a_string :
  nullish (VStr "extension crashed") = false /\
  instanceof_Error (VStr "extension crashed") = false /\
  RegisterTools.run
    (RegisterTools.handleToolCall "chrome_navigate" (VObj []))
    [Rejected (VStr "extension crashed")]
  = Some (Returned
      {| RegisterTools.content :=
           [ {| RegisterTools.item_type := "text";
                RegisterTools.text :=
                  VStr ("Error calling tool: "
                        ++ String_ (get_opt (VStr "extension crashed") "message")) |} ];
         RegisterTools.isError := true |}) /\
  String_ (get_opt (VStr "extension crashed") "message") = "undefined".
Proof.
  split; [reflexivity|]. split; [reflexivity|].
  destruct (handleToolCall_error_text "chrome_navigate" (VObj [])
              (VStr "extension crashed") eq_refl) as (Hrun & _ & Hundefined).
  split; [exact Hrun|]. apply Hundefined; [reflexivity | discriminate].
Defined.

Lemma callTool_args_for_null_arguments :
  truthy VNull = false /\
  exists args,
    RegisterTools.issued (RegisterTools.callTool "chrome_navigate" VNull)
    = Some {| RegisterTools.messagePayload :=
                VObj [("name", VStr "chrome_navigate"); ("args", args)];
              RegisterTools.messageType := CALL_TOOL;
              RegisterTools.timeoutMs := 30000 |} /\
    args = VObj [].
Proof.
  split; [reflexivity|].
  destruct (callTool_args_are_never_missing "chrome_navigate" VNull)
    as (args & Hissued & _ & _ & Hfalsy).
  exists args. split; [exact Hissued | apply Hfalsy; reflexivity].
Defined.

Lemma sigterm_exits_with_0_on_a_read_only_disk :
  Bootstrap.exit_code_of Bootstrap.SIGTERM = Some 0 /\
  Bootstrap.exited
    (Bootstrap.handle read_only_disk Bootstrap.SIGTERM Bootstrap.started)
  = Some 0 /\
  Bootstrap.log_file
    (Bootstrap.handle read_only_disk Bootstrap.SIGTERM Bootstrap.started) = [].
Proof.
  split; [reflexivity|].
  destruct (exiting_listeners_log_then_exit read_only_disk Bootstrap.SIGTERM 0
              Bootstrap.started eq_refl) as (Hexit & _).
  split; [exact Hexit | reflexivity].
Defined.

Lemma rejections_then_an_uncaught_exception :
  let boom := Bootstrap.RaisedError
                {| Bootstrap.error_message := "boom";
                   Bootstrap.error_stack := VStr "Error: boom" |} in
  let evs := [Bootstrap.UnhandledRejection (VStr "late");
              Bootstrap.UnhandledRejection VNull;
              Bootstrap.UncaughtException boom;
              Bootstrap.SIGINT] in
  let evs' := [Bootstrap.UnhandledRejection (VStr "late");
               Bootstrap.UncaughtException (Bootstrap.RaisedValue VNull);
               Bootstrap.SIGINT] in
  Bootstrap.exited Bootstrap.started = None /\
  Bootstrap.exited (Bootstrap.deliver_all read_only_disk evs Bootstrap.started)
  = Some 1 /\
  Bootstrap.exited (Bootstrap.deliver_all read_only_disk evs' Bootstrap.started)
  = Some 7.
Proof.
  intros boom evs evs'. split; [reflexivity|]. split.
  - exact (exit_is_decided_by_the_first_exiting_event read_only_disk evs
             Bootstrap.started eq_refl).
  - exact (exit_is_decided_by_the_first_exiting_event read_only_disk evs'
             Bootstrap.started eq_refl).
Defined.
